(** * Universal Deep Research: the CDK deployment stacks

    A shallow embedding of the three stacks of [infrastructure/cdk-ts]
    (gateway, backend, frontend) and of the application that wires them.
    Every [new X(scope, id, props)] of the source adds a node to the
    construct tree of the application; the embedding threads that tree as
    explicit state.  Values that only the cloud assigns (the DNS name of a
    load balancer, the identifier of an Amplify application, ...) are read
    through a parameter [attr]. *)

From stdpp Require Import base strings list gmap pretty.
From Stdlib Require Import ZArith Ascii.

Local Open Scope Z_scope.
Local Open Scope string_scope.

(** ** JavaScript values *)

Module JS.

(** A value of type [string | undefined]. *)
Abbreviation value := (option string) (only parsing).

(** The string a truthy value narrows to: [undefined] and the empty
    string are falsy. *)
Definition narrow (v : value) : option string :=
  match v with
  | Some s => if String.eqb s EmptyString then None else Some s
  | None => None
  end.

Definition truthy (v : value) : bool :=
  match narrow v with Some _ => true | None => false end.

(** [a || b] *)
Definition or (a b : value) : value := if truthy a then a else b.

(** [a || 'literal'] *)
Definition or_else (a : value) (b : string) : string :=
  match narrow a with Some s => s | None => b end.

(** [s.split(c)] for a separator of one character. *)
Fixpoint split (sep : Ascii.ascii) (s : string) : list string :=
  match s with
  | EmptyString => [EmptyString]
  | String c s' =>
      if Ascii.eqb c sep then EmptyString :: split sep s'
      else match split sep s' with
           | h :: t => String c h :: t
           | [] => [String c EmptyString]
           end
  end.

(** The double quote character, and a string between double quotes. *)
Definition dquote : string := String (Ascii.ascii_of_nat 34) EmptyString.
Definition quoted (s : string) : string := dquote +:+ s +:+ dquote.

End JS.

(** ** The construct library *)

(** A construct is named by the identifiers from the application down to
    it; an object of the source is held as the path of its node. *)
Definition Path := list string.

Module Duration.
Record t := seconds { toSeconds : Z }.
End Duration.

Module Environment.
Record t := { account : JS.value; region : JS.value }.
End Environment.

Module StackProps.
Record t := { env : option Environment.t; description : option string }.
End StackProps.

Module Role.
Inductive Principal := ServicePrincipal (service : string).
Inductive ManagedPolicy := fromAwsManagedPolicyName (name : string).
Record Props := {
  assumedBy : Principal;
  managedPolicies : list ManagedPolicy }.
End Role.

Module Vpc.
Record Props := { maxAzs : Z; natGateways : Z }.
Record LookupOptions := { isDefault : bool }.
End Vpc.

Module Cluster.
Record Props := {
  vpc : Path;
  containerInsights : bool;
  clusterName : option string }.
End Cluster.

Module Secret.
Record SecretStringGenerator := {
  secretStringTemplate : string;
  generateStringKey : string;
  excludeCharacters : string }.
Record Props := {
  description : string;
  generateSecretString : SecretStringGenerator }.
End Secret.

Module FargateTaskDefinition.
Record Props := {
  memoryLimitMiB : Z;
  cpu : Z;
  taskRole : Path;
  executionRole : option Path }.
End FargateTaskDefinition.

Module HealthCheck.
Record t := {
  command : list string;
  interval : Duration.t;
  timeout : Duration.t;
  retries : Z;
  startPeriod : Duration.t }.
End HealthCheck.

Module ContainerDefinition.
Inductive ContainerImage := fromAsset (directory : string).
Inductive RetentionDays := ONE_WEEK.
Record AwsLogDriverProps := {
  streamPrefix : string;
  logRetention : RetentionDays }.
Inductive LogDriver := awsLogs (p : AwsLogDriverProps).
Inductive EcsSecret := fromSecretsManager (secret : Path) (field : string).
Record Options := {
  image : ContainerImage;
  logging : LogDriver;
  environment : gmap string string;
  secrets : gmap string EcsSecret;
  healthCheck : option HealthCheck.t }.
Inductive Protocol := TCP.
Record PortMapping := { containerPort : Z; protocol : Protocol }.
End ContainerDefinition.

Module SecurityGroup.
Record Props := {
  vpc : Path;
  description : string;
  allowAllOutbound : bool }.
(** A peer is any IPv4 address, or the security groups of a construct
    that has connections (a load balancer, a service). *)
Inductive Peer := anyIpv4 | securityGroupsOf (connectable : Path).
Inductive Port := tcp (port : Z).
Record IngressRule := {
  peer : Peer;
  connection : Port;
  ruleDescription : string }.
End SecurityGroup.

Module FargateService.
Record Props := {
  cluster : Path;
  taskDefinition : Path;
  desiredCount : Z;
  assignPublicIp : option bool;
  securityGroups : option (list Path);
  serviceName : option string }.
Record LoadBalancerTargetOptions := {
  containerName : string;
  containerPort : Z }.
(** [service.loadBalancerTarget(options)] *)
Record LoadBalancerTarget := {
  service : Path;
  options : LoadBalancerTargetOptions }.
End FargateService.

Module ApplicationLoadBalancer.
Record Props := {
  vpc : Path;
  internetFacing : bool;
  loadBalancerName : option string }.
End ApplicationLoadBalancer.

Module ApplicationTargetGroup.
Inductive ApplicationProtocol := HTTP.
Record HealthCheck := {
  path : string;
  healthyHttpCodes : string;
  interval : Duration.t;
  timeout : Duration.t;
  healthyThresholdCount : Z;
  unhealthyThresholdCount : Z }.
Record Props := {
  vpc : Path;
  port : Z;
  protocol : ApplicationProtocol;
  targets : list FargateService.LoadBalancerTarget;
  healthCheck : option HealthCheck }.
End ApplicationTargetGroup.

Module ApplicationListener.
Inductive ListenerAction := forward (targetGroups : list Path).
Inductive ListenerCondition := httpHeader (name : string) (values : list string).
Record Props := { port : Z; defaultAction : ListenerAction }.
Record AddApplicationActionProps := {
  priority : Z;
  conditions : list ListenerCondition;
  action : ListenerAction }.
End ApplicationListener.

Module BuildSpec.
Record Phase := { commands : list string }.
Record Phases := { preBuild : Phase; build : Phase }.
Record Artifacts := { baseDirectory : string; files : list string }.
Record Cache := { paths : list string }.
Record Frontend := { phases : Phases; artifacts : Artifacts; cache : Cache }.
Record Application := { frontend : Frontend }.
Record Env := { variables : gmap string string }.
(** [codebuild.BuildSpec.fromObject({ version, applications, env })] *)
Record t := fromObject {
  version : string;
  applications : list Application;
  env : Env }.
End BuildSpec.

Module AmplifyApp.
Inductive SecretValue := secretsManager (secretId : string).
(** [split('/')[1]] is [undefined] when the repository has no slash. *)
Record GitHubSourceCodeProvider := {
  owner : option string;
  repository : option string;
  oauthToken : SecretValue }.
Record Props := {
  appName : string;
  sourceCodeProvider : option GitHubSourceCodeProvider;
  buildSpec : BuildSpec.t;
  environmentVariables : gmap string string;
  role : Path }.
End AmplifyApp.

Module Branch.
Record Options := {
  autoBuild : bool;
  branchName : string;
  environmentVariables : option (gmap string string) }.
End Branch.

Module CfnOutput.
Record Props := {
  value : string;
  description : option string;
  exportName : option string }.
End CfnOutput.

(** The nodes of the construct tree.  A node carries the properties it
    was created with and whatever later calls of the source add to it. *)
Inductive Resource :=
| Stack (props : option StackProps.t) (dependencies : list Path)
| Role (props : Role.Props) (grantedRead : list Path)
| Vpc (props : Vpc.Props)
| VpcFromLookup (options : Vpc.LookupOptions)
| Cluster (props : Cluster.Props)
| Secret (props : Secret.Props)
| FargateTaskDefinition (props : FargateTaskDefinition.Props)
| ContainerDefinition (options : ContainerDefinition.Options)
    (portMappings : list ContainerDefinition.PortMapping)
| SecurityGroup (props : SecurityGroup.Props)
    (ingress : list SecurityGroup.IngressRule)
| FargateService (props : FargateService.Props)
| ApplicationLoadBalancer (props : ApplicationLoadBalancer.Props)
| ApplicationTargetGroup (props : ApplicationTargetGroup.Props)
| ApplicationListener (props : ApplicationListener.Props)
| ApplicationListenerRule (listener : Path)
    (props : ApplicationListener.AddApplicationActionProps)
| AmplifyApp (props : AmplifyApp.Props)
| AmplifyBranch (app : Path) (options : Branch.Options)
| CfnOutput (props : CfnOutput.Props).

(** The construct tree, in creation order. *)
Definition Tree := list (Path * Resource).

(** What a constructor throws: two constructs of one scope cannot share an
    identifier, and a lookup needs a stack whose environment names an
    account and a region. *)
Inductive Failure :=
| DuplicateConstruct (p : Path)
| StackAccountRegionNotSpecified (stack : Path).

(** Code that builds constructs: it reads and extends the tree, or throws. *)
Definition Build (A : Type) : Type := Tree → Failure + (A * Tree).

#[global] Instance Build_ret : MRet Build := λ A a t, inr (a, t).
#[global] Instance Build_bind : MBind Build := λ A B f m t,
  match m t with
  | inl e => inl e
  | inr (a, t') => f a t'
  end.

(** Whether two paths are the same. *)
Fixpoint path_eqb (p q : Path) : bool :=
  match p, q with
  | [], [] => true
  | a :: p', b :: q' => String.eqb a b && path_eqb p' q'
  | _, _ => false
  end.

Fixpoint node (t : Tree) (p : Path) : option Resource :=
  match t with
  | [] => None
  | (q, r) :: t' => if path_eqb q p then Some r else node t' p
  end.

(** [new X(scope, id, ...)] *)
Definition construct (scope : Path) (id : string) (r : Resource) : Build Path :=
  λ t, let p := (scope ++ [id])%list in
       match node t p with
       | Some _ => inl (DuplicateConstruct p)
       | None => inr (p, (t ++ [(p, r)])%list)
       end.

(** A method of the object at [p] that changes it in place. *)
Definition update (p : Path) (f : Resource → Resource) : Build unit :=
  λ t, inr ((), (λ e, if path_eqb e.1 p then (e.1, f e.2) else e) <$> t).

Definition action_targets (a : ApplicationListener.ListenerAction) : list Path :=
  match a with ApplicationListener.forward targetGroups => targetGroups end.

(** [Stack.of(scope)]: the environment of a stack, as its node holds it. *)
Definition environment_of (t : Tree) (stack : Path) : option Environment.t :=
  match node t stack with
  | Some (Stack props _) => props ≫= StackProps.env
  | _ => None
  end.

(** Two rules are the same rule when peer and port agree. *)
Definition same_rule (a b : SecurityGroup.IngressRule) : bool :=
  match SecurityGroup.peer a, SecurityGroup.peer b with
  | SecurityGroup.anyIpv4, SecurityGroup.anyIpv4 => true
  | SecurityGroup.securityGroupsOf p, SecurityGroup.securityGroupsOf q =>
      path_eqb p q
  | _, _ => false
  end &&
  match SecurityGroup.connection a, SecurityGroup.connection b with
  | SecurityGroup.tcp m, SecurityGroup.tcp n => Z.eqb m n
  end.

(** [connections.allowFrom(...)] on one security group: the rule is added
    unless the group has it. *)
Definition allow (rule : SecurityGroup.IngressRule) (securityGroup : Path)
    (t : Tree) : Tree :=
  (λ e, if path_eqb e.1 securityGroup
        then (e.1, match e.2 with
                   | SecurityGroup props rules =>
                       if existsb (same_rule rule) rules then e.2
                       else SecurityGroup props (rules ++ [rule])%list
                   | r => r
                   end)
        else e) <$> t.

(** The security groups of the services behind the target groups of an
    action, each with the rule that lets the load balancer reach the port
    of the target. *)
Definition connections (t : Tree) (loadBalancer : Path)
    (action : ApplicationListener.ListenerAction)
    : list (Path * SecurityGroup.IngressRule) :=
  group ← action_targets action;
  match node t group with
  | Some (ApplicationTargetGroup props) =>
      target ← ApplicationTargetGroup.targets props;
      match node t (FargateService.service target) with
      | Some (FargateService service) =>
          securityGroup ← default [] (FargateService.securityGroups service);
          [ (securityGroup,
             {| SecurityGroup.peer := SecurityGroup.securityGroupsOf loadBalancer;
                SecurityGroup.connection :=
                  SecurityGroup.tcp
                    (FargateService.containerPort (FargateService.options target));
                SecurityGroup.ruleDescription := "Load balancer to target" |}) ]
      | _ => []
      end
  | _ => []
  end.

(** What the cloud decides: the attributes it assigns to a resource when it
    creates it, and how its load balancers compare a header value with a
    pattern of a rule. *)
Class Cloud := {
  attr : Path → string → string;
  wildcard_match : string → string → bool }.

Section Library.
Context `{Cloud}.

(** [new cdk.Stack(scope, id, props)] *)
Definition new_Stack (scope : Path) (id : string)
    (props : option StackProps.t) : Build Path :=
  construct scope id (Stack props []).

(** [stack.region]: the region of the environment when it names one. *)
Definition region (stack : Path) (props : option StackProps.t) : string :=
  match (props ≫= StackProps.env) ≫= Environment.region with
  | Some r => r
  | None => attr stack "AWS::Region"
  end.

(** [stack.addDependency(target)] *)
Definition addDependency (stack target : Path) : Build unit :=
  update stack (λ r,
    match r with
    | Stack props deps => Stack props (deps ++ [target])%list
    | _ => r
    end).

(** [secret.grantRead(role)] *)
Definition grantRead (secret role : Path) : Build unit :=
  update role (λ r,
    match r with
    | Role props granted => Role props (granted ++ [secret])%list
    | _ => r
    end).

(** [taskDefinition.addContainer(id, options)] *)
Definition addContainer (taskDefinition : Path) (id : string)
    (options : ContainerDefinition.Options) : Build Path :=
  construct taskDefinition id (ContainerDefinition options []).

(** [container.addPortMappings(mapping)] *)
Definition addPortMappings (container : Path)
    (mapping : ContainerDefinition.PortMapping) : Build unit :=
  update container (λ r,
    match r with
    | ContainerDefinition options mappings =>
        ContainerDefinition options (mappings ++ [mapping])%list
    | _ => r
    end).

(** [securityGroup.addIngressRule(peer, connection, description)] *)
Definition addIngressRule (securityGroup : Path) (peer : SecurityGroup.Peer)
    (connection : SecurityGroup.Port) (description : string) : Build unit :=
  update securityGroup (λ r,
    match r with
    | SecurityGroup props rules =>
        SecurityGroup props
          (rules ++ [ {| SecurityGroup.peer := peer;
                         SecurityGroup.connection := connection;
                         SecurityGroup.ruleDescription := description |} ])%list
    | _ => r
    end).

(** [ec2.Vpc.fromLookup(stack, id, options)]: the lookup is by account and
    region, and throws when the environment of the stack leaves one of the
    two undefined. *)
Definition fromLookup (stack : Path) (id : string)
    (options : Vpc.LookupOptions) : Build Path :=
  λ t, match environment_of t stack ≫= Environment.account,
             environment_of t stack ≫= Environment.region with
       | Some _, Some _ => construct stack id (VpcFromLookup options) t
       | _, _ => inl (StackAccountRegionNotSpecified stack)
       end.

(** An action that forwards to target groups is bound to the listener: the
    library lets the load balancer into the security groups of the services
    behind these groups, on the port of each target. *)
Definition registerListener (loadBalancer : Path)
    (action : ApplicationListener.ListenerAction) : Build unit :=
  λ t, inr ((), foldl (λ t' c, allow c.2 c.1 t') t
                  (connections t loadBalancer action)).

(** [loadBalancer.addListener(id, props)] *)
Definition addListener (loadBalancer : Path) (id : string)
    (props : ApplicationListener.Props) : Build Path :=
  listener ← construct loadBalancer id (ApplicationListener props);
  _ ← registerListener loadBalancer (ApplicationListener.defaultAction props);
  mret listener.

(** [listener.addAction(id, props)] with a priority: a rule of the
    listener, created under the identifier [id + 'Rule']. *)
Definition addAction (listener : Path) (id : string)
    (props : ApplicationListener.AddApplicationActionProps) : Build Path :=
  rule ← construct listener (id +:+ "Rule")
           (ApplicationListenerRule listener props);
  _ ← registerListener (removelast listener) (ApplicationListener.action props);
  mret rule.

(** [app.addBranch(id, options)] *)
Definition addBranch (app : Path) (id : string)
    (options : Branch.Options) : Build Path :=
  construct app id (AmplifyBranch app options).

(** Fields of library objects whose value the cloud assigns. *)
Definition loadBalancerDnsName (alb : Path) : string := attr alb "DNSName".
Definition loadBalancerArn (alb : Path) : string := attr alb "LoadBalancerArn".
Definition clusterName (cluster : Path) : string := attr cluster "ClusterName".
Definition serviceName (service : Path) : string := attr service "Name".
Definition appId (app : Path) : string := attr app "AppId".
Definition appName (app : Path) : string := attr app "AppName".
Definition defaultDomain (app : Path) : string := attr app "DefaultDomain".
Definition branchName (branch : Path) : string := attr branch "BranchName".

End Library.

(** ** The frontend stack: [stacks/frontend-stack.ts] *)

Module UDRFrontendStack.

(** [UDRFrontendStackProps extends cdk.StackProps] *)
Record Props := {
  env : option Environment.t;
  description : option string;
  backendUrl : JS.value;
  githubRepo : JS.value;
  githubToken : JS.value }.

Definition stackProps (props : Props) : option StackProps.t :=
  Some {| StackProps.env := env props;
          StackProps.description := description props |}.

(** The stack object: its node and its public fields. *)
Record t := {
  this : Path;
  frontendUrl : string;
  amplifyApp : Path;
  mainBranch : Path }.

Definition LIVE_UPDATES : string :=
  "[{" +:+ JS.quoted "name" +:+ ":" +:+ JS.quoted "Next.js version" +:+ ","
       +:+ JS.quoted "pkg" +:+ ":" +:+ JS.quoted "next" +:+ ","
       +:+ JS.quoted "type" +:+ ":" +:+ JS.quoted "npm" +:+ ","
       +:+ JS.quoted "version" +:+ ":" +:+ JS.quoted "latest" +:+ "}]".

(** Environment variables for the frontend *)
Definition environmentVariables (props : Props) : gmap string string :=
  list_to_map [
    ("NEXT_PUBLIC_BACKEND_BASE_URL",
       JS.or_else (backendUrl props) "http://localhost:8000");
    ("NEXT_PUBLIC_BACKEND_PORT", "80");
    ("NEXT_PUBLIC_API_VERSION", "v2");
    ("NEXT_PUBLIC_ENABLE_V2_API", "true");
    ("NEXT_PUBLIC_DRY_RUN", "true");
    ("_LIVE_UPDATES", LIVE_UPDATES) ].

(** Build specification for Amplify *)
Definition buildSpec (props : Props) : BuildSpec.t :=
  {| BuildSpec.version := "1.0";
     BuildSpec.applications := [
       {| BuildSpec.frontend :=
            {| BuildSpec.phases :=
                 {| BuildSpec.preBuild :=
                      {| BuildSpec.commands :=
                           ["cd frontend"; "npm ci --cache .npm --prefer-offline"] |};
                    BuildSpec.build :=
                      {| BuildSpec.commands := ["npm run build"] |} |};
               BuildSpec.artifacts :=
                 {| BuildSpec.baseDirectory := "frontend/.next";
                    BuildSpec.files := ["**/*"] |};
               BuildSpec.cache :=
                 {| BuildSpec.paths :=
                      ["frontend/node_modules/**/*"; "frontend/.next/cache/**/*"] |} |} |} ];
     BuildSpec.env :=
       {| BuildSpec.variables := environmentVariables props |} |}.

Section Constructor.
Context `{Cloud}.

Definition new (scope : Path) (id : string) (props : Props) : Build t :=
  this ← new_Stack scope id (stackProps props);
  (* Amplify Service Role *)
  amplifyRole ← construct this "AmplifyServiceRole" (Role
    {| Role.assumedBy := Role.ServicePrincipal "amplify.amazonaws.com";
       Role.managedPolicies :=
         [Role.fromAwsManagedPolicyName "AdministratorAccess-Amplify"] |} []);
  let environmentVariables := environmentVariables props in
  let buildSpec := buildSpec props in
  (* Create Amplify App *)
  '(amplifyApp, mainBranch, frontendUrl) ←
    match JS.narrow (githubRepo props), JS.narrow (githubToken props) with
    | Some githubRepo, Some githubToken =>
        (* GitHub integration *)
        amplifyApp ← construct this "UDRAmplifyApp" (AmplifyApp
          {| AmplifyApp.appName := "universal-deep-research";
             AmplifyApp.sourceCodeProvider := Some
               {| AmplifyApp.owner := JS.split "/"%char githubRepo !! 0%nat;
                  AmplifyApp.repository := JS.split "/"%char githubRepo !! 1%nat;
                  AmplifyApp.oauthToken := AmplifyApp.secretsManager githubToken |};
             AmplifyApp.buildSpec := buildSpec;
             AmplifyApp.environmentVariables := environmentVariables;
             AmplifyApp.role := amplifyRole |});
        (* Production branch (main) *)
        mainBranch ← addBranch amplifyApp "MainBranch"
          {| Branch.autoBuild := true;
             Branch.branchName := "main";
             Branch.environmentVariables := Some environmentVariables |};
        mret (amplifyApp, mainBranch,
              "https://" +:+ branchName mainBranch +:+ "." +:+ defaultDomain amplifyApp)
    | _, _ =>
        (* Manual deployment option *)
        amplifyApp ← construct this "UDRAmplifyApp" (AmplifyApp
          {| AmplifyApp.appName := "universal-deep-research";
             AmplifyApp.sourceCodeProvider := None;
             AmplifyApp.buildSpec := buildSpec;
             AmplifyApp.environmentVariables := environmentVariables;
             AmplifyApp.role := amplifyRole |});
        (* Manual branch *)
        mainBranch ← addBranch amplifyApp "MainBranch"
          {| Branch.autoBuild := true;
             Branch.branchName := "main";
             Branch.environmentVariables := Some environmentVariables |};
        mret (amplifyApp, mainBranch,
              "https://" +:+ branchName mainBranch +:+ "." +:+ defaultDomain amplifyApp)
    end;
  (* Outputs *)
  _ ← construct this "FrontendURL" (CfnOutput
    {| CfnOutput.value := frontendUrl;
       CfnOutput.description := Some "UDR Frontend URL";
       CfnOutput.exportName := Some "UDRFrontendURL" |});
  _ ← construct this "AmplifyAppId" (CfnOutput
    {| CfnOutput.value := appId amplifyApp;
       CfnOutput.description := Some "Amplify App ID";
       CfnOutput.exportName := None |});
  _ ← construct this "AmplifyAppName" (CfnOutput
    {| CfnOutput.value := appName amplifyApp;
       CfnOutput.description := Some "Amplify App Name";
       CfnOutput.exportName := None |});
  (* Webhook for manual deployments *)
  _ ← (if negb (JS.truthy (githubRepo props)) then
         webhookBranch ← addBranch amplifyApp "WebhookBranch"
           {| Branch.autoBuild := false;
              Branch.branchName := "webhook";
              Branch.environmentVariables := None |};
         _ ← construct this "WebhookURL" (CfnOutput
           {| CfnOutput.value :=
                "https://webhooks.amplify." +:+ region this (stackProps props)
                  +:+ ".amazonaws.com/prod/webhooks?id=" +:+ appId amplifyApp
                  +:+ "&token=<token>&operation=startbuild";
              CfnOutput.description := Some "Webhook URL for manual deployments";
              CfnOutput.exportName := None |});
         mret ()
       else mret ());
  mret {| this := this;
          frontendUrl := frontendUrl;
          amplifyApp := amplifyApp;
          mainBranch := mainBranch |}.

End Constructor.

End UDRFrontendStack.

(** ** The gateway stack: [stacks/gateway-stack.ts] *)

Module BedrockGatewayStack.

Record t := {
  this : Path;
  gatewayUrl : string;
  gatewayUrlExport : Path }.

Section Constructor.
Context `{Cloud}.

Definition new (scope : Path) (id : string)
    (props : option StackProps.t) : Build t :=
  this ← new_Stack scope id props;
  (* VPC *)
  vpc ← construct this "GatewayVPC" (Vpc
    {| Vpc.maxAzs := 2; Vpc.natGateways := 1 |});
  (* ECS Cluster *)
  cluster ← construct this "GatewayCluster" (Cluster
    {| Cluster.vpc := vpc;
       Cluster.containerInsights := true;
       Cluster.clusterName := None |});
  (* Task Role with Bedrock permissions *)
  taskRole ← construct this "GatewayTaskRole" (Role
    {| Role.assumedBy := Role.ServicePrincipal "ecs-tasks.amazonaws.com";
       Role.managedPolicies :=
         [Role.fromAwsManagedPolicyName "AmazonBedrockFullAccess"] |} []);
  (* Task Definition *)
  taskDefinition ← construct this "GatewayTaskDef" (FargateTaskDefinition
    {| FargateTaskDefinition.memoryLimitMiB := 1024;
       FargateTaskDefinition.cpu := 512;
       FargateTaskDefinition.taskRole := taskRole;
       FargateTaskDefinition.executionRole := None |});
  (* Container from submodule *)
  container ← addContainer taskDefinition "GatewayContainer"
    {| ContainerDefinition.image :=
         ContainerDefinition.fromAsset "../../infrastructure/bedrock-gateway/src";
       ContainerDefinition.logging := ContainerDefinition.awsLogs
         {| ContainerDefinition.streamPrefix := "bedrock-gateway";
            ContainerDefinition.logRetention := ContainerDefinition.ONE_WEEK |};
       ContainerDefinition.environment := list_to_map [
         ("PORT", "8080");
         ("AWS_REGION", region this props) ];
       ContainerDefinition.secrets := ∅;
       ContainerDefinition.healthCheck := None |};
  _ ← addPortMappings container
    {| ContainerDefinition.containerPort := 8080;
       ContainerDefinition.protocol := ContainerDefinition.TCP |};
  (* Fargate Service *)
  service ← construct this "GatewayService" (FargateService
    {| FargateService.cluster := cluster;
       FargateService.taskDefinition := taskDefinition;
       FargateService.desiredCount := 1;
       FargateService.assignPublicIp := Some false;
       FargateService.securityGroups := None;
       FargateService.serviceName := None |});
  (* Application Load Balancer *)
  alb ← construct this "GatewayALB" (ApplicationLoadBalancer
    {| ApplicationLoadBalancer.vpc := vpc;
       ApplicationLoadBalancer.internetFacing := true;
       ApplicationLoadBalancer.loadBalancerName := None |});
  (* Target Group *)
  targetGroup ← construct this "GatewayTargets" (ApplicationTargetGroup
    {| ApplicationTargetGroup.vpc := vpc;
       ApplicationTargetGroup.port := 8080;
       ApplicationTargetGroup.protocol := ApplicationTargetGroup.HTTP;
       ApplicationTargetGroup.targets := [
         {| FargateService.service := service;
            FargateService.options :=
              {| FargateService.containerName := "GatewayContainer";
                 FargateService.containerPort := 8080 |} |} ];
       ApplicationTargetGroup.healthCheck := None |});
  (* Listener *)
  _ ← addListener alb "GatewayListener"
    {| ApplicationListener.port := 80;
       ApplicationListener.defaultAction :=
         ApplicationListener.forward [targetGroup] |};
  (* Store Gateway URL *)
  let gatewayUrl := "http://" +:+ loadBalancerDnsName alb in
  (* Outputs *)
  _ ← construct this "GatewayURL" (CfnOutput
    {| CfnOutput.value := gatewayUrl;
       CfnOutput.description := Some "Bedrock Access Gateway URL";
       CfnOutput.exportName := None |});
  gatewayUrlExport ← construct this "GatewayURLExport" (CfnOutput
    {| CfnOutput.value := gatewayUrl;
       CfnOutput.description := None;
       CfnOutput.exportName := Some "BedrockGatewayURL" |});
  mret {| this := this;
          gatewayUrl := gatewayUrl;
          gatewayUrlExport := gatewayUrlExport |}.

End Constructor.

End BedrockGatewayStack.

(** ** The backend stack: [stacks/backend-stack.ts] *)

Module UDRBackendStack.

(** [UDRBackendStackProps extends cdk.StackProps] *)
Record Props := {
  env : option Environment.t;
  description : option string;
  gatewayUrl : string }.

Definition stackProps (props : Props) : option StackProps.t :=
  Some {| StackProps.env := env props;
          StackProps.description := description props |}.

Record t := {
  this : Path;
  backendUrl : string;
  backendAlbArn : string;
  backendUrlOutput : Path }.

(** [JSON.stringify({ tavily_api_key: '' })] *)
Definition secretStringTemplate : string :=
  "{" +:+ JS.quoted "tavily_api_key" +:+ ":" +:+ JS.quoted EmptyString +:+ "}".

(** The environment of the backend container. *)
Definition environment (props : Props) : gmap string string :=
  list_to_map [
    ("HOST", "0.0.0.0");
    ("PORT", "8000");
    ("LOG_LEVEL", "info");
    ("DEFAULT_MODEL", "claude-3-sonnet");
    ("LLM_BASE_URL", gatewayUrl props +:+ "/v1");
    ("LLM_API_KEY_FILE", "/tmp/dummy_key.txt");
    ("TAVILY_API_KEY_FILE", "/tmp/tavily_key.txt");
    ("MAX_TOPICS", "3");
    ("MAX_SEARCH_PHRASES", "5") ].

(** The health check of the backend container. *)
Definition healthCheck : HealthCheck.t :=
  {| HealthCheck.command :=
       ["CMD-SHELL"; "curl -f http://localhost:8000/ || exit 1"];
     HealthCheck.interval := Duration.seconds 30;
     HealthCheck.timeout := Duration.seconds 5;
     HealthCheck.retries := 3;
     HealthCheck.startPeriod := Duration.seconds 60 |}.

Section Constructor.
Context `{Cloud}.

Definition new (scope : Path) (id : string) (props : Props) : Build t :=
  this ← new_Stack scope id (stackProps props);
  (* Import VPC or create new one *)
  vpc ← fromLookup this "VPC" {| Vpc.isDefault := true |};
  (* ECS Cluster for Backend *)
  cluster ← construct this "UDRBackendCluster" (Cluster
    {| Cluster.vpc := vpc;
       Cluster.containerInsights := true;
       Cluster.clusterName := Some "udr-backend-cluster" |});
  (* Secrets for API keys *)
  apiSecrets ← construct this "UDRBackendSecrets" (Secret
    {| Secret.description := "API keys for UDR backend application";
       Secret.generateSecretString :=
         {| Secret.secretStringTemplate := secretStringTemplate;
            Secret.generateStringKey := "nvidia_api_key";
            Secret.excludeCharacters := JS.dquote +:+ "@/\" |} |});
  (* Task Role with necessary permissions *)
  taskRole ← construct this "BackendTaskRole" (Role
    {| Role.assumedBy := Role.ServicePrincipal "ecs-tasks.amazonaws.com";
       Role.managedPolicies :=
         [Role.fromAwsManagedPolicyName
            "service-role/AmazonECSTaskExecutionRolePolicy"] |} []);
  (* Grant access to secrets *)
  _ ← grantRead apiSecrets taskRole;
  (* Backend Task Definition *)
  backendTask ← construct this "BackendTaskDef" (FargateTaskDefinition
    {| FargateTaskDefinition.memoryLimitMiB := 2048;
       FargateTaskDefinition.cpu := 1024;
       FargateTaskDefinition.taskRole := taskRole;
       FargateTaskDefinition.executionRole := Some taskRole |});
  (* Backend Container *)
  backendContainer ← addContainer backendTask "BackendContainer"
    {| ContainerDefinition.image := ContainerDefinition.fromAsset "../../backend";
       ContainerDefinition.logging := ContainerDefinition.awsLogs
         {| ContainerDefinition.streamPrefix := "udr-backend";
            ContainerDefinition.logRetention := ContainerDefinition.ONE_WEEK |};
       ContainerDefinition.environment := environment props;
       ContainerDefinition.secrets := list_to_map [
         ("NVIDIA_API_KEY",
            ContainerDefinition.fromSecretsManager apiSecrets "nvidia_api_key");
         ("TAVILY_API_KEY",
            ContainerDefinition.fromSecretsManager apiSecrets "tavily_api_key") ];
       ContainerDefinition.healthCheck := Some healthCheck |};
  _ ← addPortMappings backendContainer
    {| ContainerDefinition.containerPort := 8000;
       ContainerDefinition.protocol := ContainerDefinition.TCP |};
  (* Security Group for Backend *)
  backendSg ← construct this "BackendSecurityGroup" (SecurityGroup
    {| SecurityGroup.vpc := vpc;
       SecurityGroup.description := "Security group for UDR Backend";
       SecurityGroup.allowAllOutbound := true |} []);
  _ ← addIngressRule backendSg SecurityGroup.anyIpv4 (SecurityGroup.tcp 8000)
        "Allow HTTP traffic to backend";
  (* Backend Service *)
  backendService ← construct this "BackendService" (FargateService
    {| FargateService.cluster := cluster;
       FargateService.taskDefinition := backendTask;
       FargateService.desiredCount := 1;
       FargateService.assignPublicIp := None;
       FargateService.securityGroups := Some [backendSg];
       FargateService.serviceName := Some "udr-backend-service" |});
  (* Backend Load Balancer *)
  backendAlb ← construct this "BackendALB" (ApplicationLoadBalancer
    {| ApplicationLoadBalancer.vpc := vpc;
       ApplicationLoadBalancer.internetFacing := true;
       ApplicationLoadBalancer.loadBalancerName := Some "udr-backend-alb" |});
  (* Backend Target Group *)
  backendTg ← construct this "BackendTargets" (ApplicationTargetGroup
    {| ApplicationTargetGroup.vpc := vpc;
       ApplicationTargetGroup.port := 8000;
       ApplicationTargetGroup.protocol := ApplicationTargetGroup.HTTP;
       ApplicationTargetGroup.targets := [
         {| FargateService.service := backendService;
            FargateService.options :=
              {| FargateService.containerName := "BackendContainer";
                 FargateService.containerPort := 8000 |} |} ];
       ApplicationTargetGroup.healthCheck := Some
         {| ApplicationTargetGroup.path := "/";
            ApplicationTargetGroup.healthyHttpCodes := "200";
            ApplicationTargetGroup.interval := Duration.seconds 30;
            ApplicationTargetGroup.timeout := Duration.seconds 5;
            ApplicationTargetGroup.healthyThresholdCount := 2;
            ApplicationTargetGroup.unhealthyThresholdCount := 3 |} |});
  (* Backend Listener *)
  backendListener ← addListener backendAlb "BackendListener"
    {| ApplicationListener.port := 80;
       ApplicationListener.defaultAction :=
         ApplicationListener.forward [backendTg] |};
  (* CORS configuration for Amplify *)
  _ ← addAction backendListener "CorsAction"
    {| ApplicationListener.priority := 100;
       ApplicationListener.conditions :=
         [ApplicationListener.httpHeader "Origin" ["*.amplifyapp.com"]];
       ApplicationListener.action :=
         ApplicationListener.forward [backendTg] |};
  (* Store backend URL for export *)
  let backendUrl := "http://" +:+ loadBalancerDnsName backendAlb in
  let backendAlbArn := loadBalancerArn backendAlb in
  (* Outputs *)
  backendUrlOutput ← construct this "BackendURL" (CfnOutput
    {| CfnOutput.value := backendUrl;
       CfnOutput.description := Some "UDR Backend API URL";
       CfnOutput.exportName := Some "UDRBackendURL" |});
  _ ← construct this "BackendALBArn" (CfnOutput
    {| CfnOutput.value := backendAlbArn;
       CfnOutput.description := Some "Backend ALB ARN";
       CfnOutput.exportName := None |});
  _ ← construct this "BackendClusterName" (CfnOutput
    {| CfnOutput.value := clusterName cluster;
       CfnOutput.description := Some "Backend ECS Cluster Name";
       CfnOutput.exportName := None |});
  _ ← construct this "BackendServiceName" (CfnOutput
    {| CfnOutput.value := serviceName backendService;
       CfnOutput.description := Some "Backend ECS Service Name";
       CfnOutput.exportName := None |});
  mret {| this := this;
          backendUrl := backendUrl;
          backendAlbArn := backendAlbArn;
          backendUrlOutput := backendUrlOutput |}.

End Constructor.

End UDRBackendStack.

(** ** The application: the three stacks and their wiring *)

Module App.

(** What a run of the application reads from outside: the context of the
    command line and the environment of the process. *)
Record Inputs := {
  context : gmap string string;
  process_env : gmap string string }.

(** [app.node.tryGetContext(key)] *)
Definition tryGetContext (i : Inputs) (key : string) : JS.value :=
  context i !! key.

(** Environment configuration *)
Definition env (i : Inputs) : Environment.t :=
  {| Environment.account :=
       JS.or (tryGetContext i "account") (process_env i !! "CDK_DEFAULT_ACCOUNT");
     Environment.region := Some
       (JS.or_else
          (JS.or (tryGetContext i "region") (process_env i !! "CDK_DEFAULT_REGION"))
          "us-east-1") |}.

Record t := {
  gatewayStack : BedrockGatewayStack.t;
  backendStack : UDRBackendStack.t;
  frontendStack : UDRFrontendStack.t }.

Section Main.
Context `{Cloud}.

Definition main (i : Inputs) : Build t :=
  let env := env i in
  (* Deploy Bedrock Access Gateway *)
  gatewayStack ← BedrockGatewayStack.new [] "BedrockGatewayStack" (Some
    {| StackProps.env := Some env;
       StackProps.description :=
         Some "Bedrock Access Gateway for OpenAI compatibility" |});
  (* Deploy UDR Backend *)
  backendStack ← UDRBackendStack.new [] "UDRBackendStack"
    {| UDRBackendStack.gatewayUrl := BedrockGatewayStack.gatewayUrl gatewayStack;
       UDRBackendStack.env := Some env;
       UDRBackendStack.description :=
         Some "Universal Deep Research Backend (FastAPI + ECS)" |};
  (* Deploy UDR Frontend *)
  frontendStack ← UDRFrontendStack.new [] "UDRFrontendStack"
    {| UDRFrontendStack.backendUrl := Some (UDRBackendStack.backendUrl backendStack);
       UDRFrontendStack.githubRepo := tryGetContext i "github_repo";
       UDRFrontendStack.githubToken := tryGetContext i "github_token_secret";
       UDRFrontendStack.env := Some env;
       UDRFrontendStack.description :=
         Some "Universal Deep Research Frontend (Next.js + Amplify)" |};
  (* Add dependencies *)
  _ ← addDependency (UDRBackendStack.this backendStack)
        (BedrockGatewayStack.this gatewayStack);
  _ ← addDependency (UDRFrontendStack.this frontendStack)
        (UDRBackendStack.this backendStack);
  mret {| gatewayStack := gatewayStack;
          backendStack := backendStack;
          frontendStack := frontendStack |}.

(** [app.synth()]: the construct tree the run has built from the empty
    tree of [new cdk.App()]; a run in which a constructor throws reaches
    no [app.synth()]. *)
Definition synth (i : Inputs) : Failure + Tree :=
  match main i [] with
  | inl e => inl e
  | inr (_, tree) => inr tree
  end.

End Main.

End App.

(** ** Reading a construct tree *)

(** The stacks of a tree, and the dependencies they declare: [(a, b)] when
    [a.addDependency(b)] was called. *)
Definition stacks (t : Tree) : list Path :=
  omap (λ e, match e.2 with Stack _ _ => Some e.1 | _ => None end) t.

Definition dependencies (t : Tree) : list (Path * Path) :=
  e ← t;
  match e.2 with
  | Stack _ deps => (λ d, (e.1, d)) <$> deps
  | _ => []
  end.

(** The value of an output of a stack. *)
Definition output (t : Tree) (stack : Path) (name : string) : option string :=
  match node t (stack ++ [name])%list with
  | Some (CfnOutput props) => Some (CfnOutput.value props)
  | _ => None
  end.

(** The rules of a listener. *)
Definition rules (t : Tree) (listener : Path)
    : list ApplicationListener.AddApplicationActionProps :=
  omap (λ e,
    match e.2 with
    | ApplicationListenerRule l props =>
        if path_eqb l listener then Some props else None
    | _ => None
    end) t.

(** The part of a tree under a construct, the construct included. *)
Fixpoint path_prefixb (p q : Path) : bool :=
  match p, q with
  | [], _ => true
  | a :: p', b :: q' => String.eqb a b && path_prefixb p' q'
  | _ :: _, [] => false
  end.

Definition subtree (t : Tree) (p : Path) : Tree :=
  List.filter (λ e, path_prefixb p e.1) t.

(** ** The provisioning tool *)

(** The three stacks of the application. *)
Definition gatewayStack : Path := ["BedrockGatewayStack"].
Definition backendStack : Path := ["UDRBackendStack"].
Definition frontendStack : Path := ["UDRFrontendStack"].

(** The place of a stack in an order, and whether one stack comes before
    another. *)
Fixpoint position (x : Path) (l : list Path) : option nat :=
  match l with
  | [] => None
  | y :: l' => if path_eqb y x then Some 0%nat else S <$> position x l'
  end.

Definition before (x y : Path) (order : list Path) : bool :=
  match position x order, position y order with
  | Some i, Some j => bool_decide (i < j)%nat
  | _, _ => false
  end.

(** Modelled from the spec: the provisioning tool is not part of the
    sources.  It provisions the units one at a time, a unit only after
    every unit it declares a dependency on; an order of deployment is a
    list of the stacks of the tree, each once, that respects this. *)
Definition deploy_order (t : Tree) (order : list Path) : Prop :=
  order ≡ₚ stacks t ∧
  forallb (λ d, before d.2 d.1 order) (dependencies t) = true.

(** Modelled from the spec: teardown goes the other way round, a unit
    only after every unit that depends on it. *)
Definition destroy_order (t : Tree) (order : list Path) : Prop :=
  order ≡ₚ stacks t ∧
  forallb (λ d, before d.1 d.2 order) (dependencies t) = true.

(** ** The load balancer *)

(** Modelled from the spec: the load balancer is a service of the cloud,
    not part of the sources.  It sends a request by the rule of lowest
    priority number whose conditions all hold, and by the default action of
    the listener when no rule applies. *)
Section Routing.
Context `{Cloud}.

(** A request, by its headers. *)
Definition Request := list (string * string).

Fixpoint header (name : string) (r : Request) : option string :=
  match r with
  | [] => None
  | (n, v) :: r' => if String.eqb n name then Some v else header name r'
  end.

(** A condition holds when the request has the header and its value
    matches one of the patterns. *)
Definition holds (r : Request) (c : ApplicationListener.ListenerCondition) : bool :=
  match c with
  | ApplicationListener.httpHeader name values =>
      match header name r with
      | Some v => existsb (λ pattern, wildcard_match pattern v) values
      | None => false
      end
  end.

Definition applies (r : Request)
    (rule : ApplicationListener.AddApplicationActionProps) : bool :=
  forallb (holds r) (ApplicationListener.conditions rule).

(** The rule of lowest priority number among those that apply. *)
Fixpoint first_rule (r : Request)
    (rs : list ApplicationListener.AddApplicationActionProps)
    : option ApplicationListener.AddApplicationActionProps :=
  match rs with
  | [] => None
  | rule :: rs' =>
      if applies r rule then
        match first_rule r rs' with
        | Some other =>
            if bool_decide (ApplicationListener.priority other
                            < ApplicationListener.priority rule)
            then Some other else Some rule
        | None => Some rule
        end
      else first_rule r rs'
  end.

(** The request comes from an origin that matches the pattern. *)
Definition origin_matches (pattern : string) (r : Request) : bool :=
  match header "Origin" r with
  | Some origin => wildcard_match pattern origin
  | None => false
  end.

(** Where a listener sends a request: the priority of the rule that
    decided, if one did, and the action taken. *)
Definition route (t : Tree) (listener : Path) (r : Request)
    : option (option Z * ApplicationListener.ListenerAction) :=
  match node t listener with
  | Some (ApplicationListener props) =>
      match first_rule r (rules t listener) with
      | Some rule => Some (Some (ApplicationListener.priority rule),
                           ApplicationListener.action rule)
      | None => Some (None, ApplicationListener.defaultAction props)
      end
  | _ => None
  end.

End Routing.

(** ** Provisioning one stack in a fresh application *)

Section Provisioning.
Context `{Cloud}.

Definition provision_frontend (props : UDRFrontendStack.Props)
    : Failure + (UDRFrontendStack.t * Tree) :=
  UDRFrontendStack.new [] "UDRFrontendStack" props [].

Definition provision_backend (props : UDRBackendStack.Props)
    : Failure + (UDRBackendStack.t * Tree) :=
  UDRBackendStack.new [] "UDRBackendStack" props [].

Definition provision_gateway (props : option StackProps.t)
    : Failure + (BedrockGatewayStack.t * Tree) :=
  BedrockGatewayStack.new [] "BedrockGatewayStack" props [].

End Provisioning.

(** ** Outcomes *)

(** Provisioning raises when the constructor throws. *)
Definition raises {A : Type} (o : Failure + A) : Prop := ∃ e, o = inl e.

Definition succeeds {A : Type} (o : Failure + A) : bool :=
  match o with inr _ => true | inl _ => false end.

(** The tree an outcome leaves, and the object it returns. *)
Definition tree_of {A : Type} (o : Failure + (A * Tree)) : Tree :=
  match o with inr (_, t) => t | inl _ => [] end.

Definition object_of {A : Type} `{Inhabited A} (o : Failure + (A * Tree)) : A :=
  match o with inr (a, _) => a | inl _ => inhabitant end.

Definition graph_of (o : Failure + Tree) : Tree :=
  match o with inr t => t | inl _ => [] end.

#[global] Instance BedrockGatewayStack_inhabited : Inhabited BedrockGatewayStack.t :=
  populate {| BedrockGatewayStack.this := [];
              BedrockGatewayStack.gatewayUrl := EmptyString;
              BedrockGatewayStack.gatewayUrlExport := [] |}.

#[global] Instance UDRBackendStack_inhabited : Inhabited UDRBackendStack.t :=
  populate {| UDRBackendStack.this := [];
              UDRBackendStack.backendUrl := EmptyString;
              UDRBackendStack.backendAlbArn := EmptyString;
              UDRBackendStack.backendUrlOutput := [] |}.

#[global] Instance UDRFrontendStack_inhabited : Inhabited UDRFrontendStack.t :=
  populate {| UDRFrontendStack.this := [];
              UDRFrontendStack.frontendUrl := EmptyString;
              UDRFrontendStack.amplifyApp := [];
              UDRFrontendStack.mainBranch := [] |}.

#[global] Instance App_inhabited : Inhabited App.t :=
  populate {| App.gatewayStack := inhabitant;
              App.backendStack := inhabitant;
              App.frontendStack := inhabitant |}.

(** ** Reading a construct tree, continued *)

Definition amplifyApp (t : Tree) (p : Path) : option AmplifyApp.Props :=
  match node t p with Some (AmplifyApp props) => Some props | _ => None end.

Definition branch (t : Tree) (p : Path) : option Branch.Options :=
  match node t p with Some (AmplifyBranch _ options) => Some options | _ => None end.

Definition container (t : Tree) (p : Path) : option ContainerDefinition.Options :=
  match node t p with Some (ContainerDefinition options _) => Some options | _ => None end.

Definition listener (t : Tree) (p : Path) : option ApplicationListener.Props :=
  match node t p with Some (ApplicationListener props) => Some props | _ => None end.

(** The application shells of a tree, and those a provisioning created. *)
Definition app_shells (t : Tree) : list Path :=
  omap (λ e, match e.2 with AmplifyApp _ => Some e.1 | _ => None end) t.

Definition created_shells {A : Type} (o : Failure + (A * Tree)) : list Path :=
  app_shells (tree_of o).

(** The environment a build of the application runs in, as the build
    specification, the application and the branch each carry it. *)
Definition build_environments (t : Tree) (app branch' : Path)
    : list (option (gmap string string)) :=
  [ (λ a, BuildSpec.variables (BuildSpec.env (AmplifyApp.buildSpec a)))
      <$> amplifyApp t app;
    AmplifyApp.environmentVariables <$> amplifyApp t app;
    branch t branch' ≫= Branch.environmentVariables ].

(** ** The two provisioning paths of the frontend *)

(** The source tests the repository and the credential for truthiness: a
    value is supplied when it is a string that is not empty. *)
Definition supplied (v : JS.value) : bool := JS.truthy v.

Definition exactly_one_supplied (props : UDRFrontendStack.Props) : Prop :=
  supplied (UDRFrontendStack.githubRepo props)
    ≠ supplied (UDRFrontendStack.githubToken props).

Definition both_supplied (props : UDRFrontendStack.Props) : Prop :=
  supplied (UDRFrontendStack.githubRepo props) = true ∧
  supplied (UDRFrontendStack.githubToken props) = true.

Definition neither_supplied (props : UDRFrontendStack.Props) : Prop :=
  supplied (UDRFrontendStack.githubRepo props) = false ∧
  supplied (UDRFrontendStack.githubToken props) = false.

(** The disconnected path makes an application shell without a repository,
    the connected path one bound to a repository. *)
Definition disconnected (t : Tree) (app : Path) : Prop :=
  AmplifyApp.sourceCodeProvider <$> amplifyApp t app = Some None.

Definition connected (t : Tree) (app : Path) : Prop :=
  ∃ provider,
    AmplifyApp.sourceCodeProvider <$> amplifyApp t app = Some (Some provider).

(** The claim that a half-supplied pair is rejected, as the specification
    states it. *)
Definition rejects_half_pair `{Cloud} (props : UDRFrontendStack.Props) : Prop :=
  exactly_one_supplied props →
  raises (provision_frontend props) ∧
  created_shells (provision_frontend props) = [].

(** The claim that the disconnected path is taken only when both are
    absent, as the specification states it. *)
Definition disconnected_only_when_neither `{Cloud}
    (props : UDRFrontendStack.Props) : Prop :=
  disconnected (tree_of (provision_frontend props))
    (UDRFrontendStack.amplifyApp (object_of (provision_frontend props))) →
  neither_supplied props.

(** ** The environment a lookup needs *)

(** An environment names an account and a region. *)
Definition environment_is_given (env : option Environment.t) : bool :=
  match env with
  | Some e =>
      JS.truthy (Environment.account e) && JS.truthy (Environment.region e)
  | None => false
  end.

(** A run knows its account when the context or the process names one; a
    region it always has. *)
Definition account_is_given (i : App.Inputs) : bool :=
  JS.truthy (Environment.account (App.env i)).

(** ** An example cloud *)

(** Patterns of a load balancer rule: [*] stands for any run of characters
    and [?] for one character. *)
Fixpoint glob (pattern : string) : string → bool :=
  match pattern with
  | EmptyString => λ s, match s with EmptyString => true | _ => false end
  | String c pattern' =>
      if Ascii.eqb c "*" then
        fix star (s : string) : bool :=
          glob pattern' s ||
          match s with
          | EmptyString => false
          | String _ s' => star s'
          end
      else λ s,
        match s with
        | EmptyString => false
        | String d s' => (Ascii.eqb c "?" || Ascii.eqb c d) && glob pattern' s'
        end
  end.

(** A cloud that gives the gateway the host [gw.example], the backend the
    host [backend.example], and the frontend the application [d1a2b3c4]. *)
Definition example_attr (p : Path) (a : string) : string :=
  if decide (p = ["BedrockGatewayStack"; "GatewayALB"] ∧ a = "DNSName")
  then "gw.example"
  else if decide (p = ["UDRBackendStack"; "BackendALB"] ∧ a = "DNSName")
  then "backend.example"
  else if decide (a = "AppId") then "d1a2b3c4"
  else if decide (a = "DefaultDomain") then "d1a2b3c4.amplifyapp.com"
  else if decide (a = "BranchName")
  then match last p with
       | Some "MainBranch" => "main"
       | Some "WebhookBranch" => "webhook"
       | _ => a
       end
  else a.

Definition example_cloud : Cloud :=
  {| attr := example_attr; wildcard_match := glob |}.

(** Inputs of the examples. *)
Definition repo_only : UDRFrontendStack.Props :=
  {| UDRFrontendStack.env := None;
     UDRFrontendStack.description := None;
     UDRFrontendStack.backendUrl := Some "http://backend.example";
     UDRFrontendStack.githubRepo := Some "alice/udr";
     UDRFrontendStack.githubToken := None |}.

Definition no_repo_no_backend : UDRFrontendStack.Props :=
  {| UDRFrontendStack.env := None;
     UDRFrontendStack.description := None;
     UDRFrontendStack.backendUrl := None;
     UDRFrontendStack.githubRepo := None;
     UDRFrontendStack.githubToken := None |}.

Definition alice_connected : UDRFrontendStack.Props :=
  {| UDRFrontendStack.env := None;
     UDRFrontendStack.description := None;
     UDRFrontendStack.backendUrl := Some "http://backend.example";
     UDRFrontendStack.githubRepo := Some "alice/udr";
     UDRFrontendStack.githubToken := Some "github-token" |}.

(** A run of the command line tool, which tells the process the account
    and the region of the caller. *)
Definition alice_udr : App.Inputs :=
  {| App.context := list_to_map [
       ("github_repo", "alice/udr");
       ("github_token_secret", "github-token") ];
     App.process_env := list_to_map [
       ("CDK_DEFAULT_ACCOUNT", "123456789012");
       ("CDK_DEFAULT_REGION", "us-east-1") ] |}.

(** The same run where nothing names an account. *)
Definition alice_udr_without_account : App.Inputs :=
  {| App.context := list_to_map [
       ("github_repo", "alice/udr");
       ("github_token_secret", "github-token") ];
     App.process_env := ∅ |}.

Definition backend_in_account : UDRBackendStack.Props :=
  {| UDRBackendStack.env :=
       Some {| Environment.account := Some "123456789012";
               Environment.region := Some "us-east-1" |};
     UDRBackendStack.description := None;
     UDRBackendStack.gatewayUrl := "http://gw.example" |}.

Definition backend_without_environment : UDRBackendStack.Props :=
  {| UDRBackendStack.env := None;
     UDRBackendStack.description := None;
     UDRBackendStack.gatewayUrl := "http://gw.example" |}.

(** ** The frontend-only application *)

Module FrontendOnlyApp.

(** Environment configuration *)
Definition env (i : App.Inputs) : Environment.t :=
  {| Environment.account :=
       JS.or (App.tryGetContext i "account")
             (App.process_env i !! "CDK_DEFAULT_ACCOUNT");
     Environment.region := Some
       (JS.or_else
          (JS.or (App.tryGetContext i "region")
                 (App.process_env i !! "CDK_DEFAULT_REGION"))
          "us-east-1") |}.

Section Main.
Context `{Cloud}.

(** The application computes its environment and then synthesizes: under
    [Deploy UDR Frontend only] the source has no statement. *)
Definition main (i : App.Inputs) : Build unit :=
  let env := env i in
  mret ().

Definition synth (i : App.Inputs) : Failure + Tree :=
  match main i [] with
  | inl e => inl e
  | inr (_, tree) => inr tree
  end.

End Main.

End FrontendOnlyApp.

(** ** Reading a construct tree: references *)

(** The kinds of construct. *)
Inductive Kind :=
| KStack | KRole | KVpc | KCluster | KSecret | KTaskDefinition | KContainer
| KSecurityGroup | KService | KLoadBalancer | KTargetGroup | KListener
| KListenerRule | KApp | KBranch | KOutput.

#[global] Instance Kind_eq_dec : EqDecision Kind.
Proof. solve_decision. Defined.

Definition kind (r : Resource) : Kind :=
  match r with
  | Stack _ _ => KStack
  | Role _ _ => KRole
  | Vpc _ | VpcFromLookup _ => KVpc
  | Cluster _ => KCluster
  | Secret _ => KSecret
  | FargateTaskDefinition _ => KTaskDefinition
  | ContainerDefinition _ _ => KContainer
  | SecurityGroup _ _ => KSecurityGroup
  | FargateService _ => KService
  | ApplicationLoadBalancer _ => KLoadBalancer
  | ApplicationTargetGroup _ => KTargetGroup
  | ApplicationListener _ => KListener
  | ApplicationListenerRule _ _ => KListenerRule
  | AmplifyApp _ => KApp
  | AmplifyBranch _ _ => KBranch
  | CfnOutput _ => KOutput
  end.

Definition secret_of (s : ContainerDefinition.EcsSecret) : Path :=
  match s with ContainerDefinition.fromSecretsManager secret _ => secret end.

Definition field_of (s : ContainerDefinition.EcsSecret) : string :=
  match s with ContainerDefinition.fromSecretsManager _ field => field end.

(** The objects a construct holds, each with the kind its place asks for. *)
Definition references (r : Resource) : list (Path * Kind) :=
  match r with
  | Stack _ dependencies => (λ d, (d, KStack)) <$> dependencies
  | Role _ grantedRead => (λ s, (s, KSecret)) <$> grantedRead
  | Cluster props => [(Cluster.vpc props, KVpc)]
  | FargateTaskDefinition props =>
      (FargateTaskDefinition.taskRole props, KRole)
        :: match FargateTaskDefinition.executionRole props with
           | Some role => [(role, KRole)]
           | None => []
           end
  | ContainerDefinition options _ =>
      (λ e, (secret_of e.2, KSecret))
        <$> map_to_list (ContainerDefinition.secrets options)
  | SecurityGroup props rules =>
      (SecurityGroup.vpc props, KVpc)
        :: omap (λ rule, match SecurityGroup.peer rule with
                         | SecurityGroup.securityGroupsOf connectable =>
                             Some (connectable, KLoadBalancer)
                         | SecurityGroup.anyIpv4 => None
                         end) rules
  | FargateService props =>
      (FargateService.cluster props, KCluster)
        :: (FargateService.taskDefinition props, KTaskDefinition)
        :: ((λ g, (g, KSecurityGroup))
              <$> default [] (FargateService.securityGroups props))
  | ApplicationLoadBalancer props =>
      [(ApplicationLoadBalancer.vpc props, KVpc)]
  | ApplicationTargetGroup props =>
      (ApplicationTargetGroup.vpc props, KVpc)
        :: ((λ target, (FargateService.service target, KService))
              <$> ApplicationTargetGroup.targets props)
  | ApplicationListener props =>
      (λ g, (g, KTargetGroup))
        <$> action_targets (ApplicationListener.defaultAction props)
  | ApplicationListenerRule listener props =>
      (listener, KListener)
        :: ((λ g, (g, KTargetGroup))
              <$> action_targets (ApplicationListener.action props))
  | AmplifyApp props => [(AmplifyApp.role props, KRole)]
  | AmplifyBranch app _ => [(app, KApp)]
  | Vpc _ | VpcFromLookup _ | Secret _ | CfnOutput _ => []
  end.

Definition has_kind (t : Tree) (p : Path) (k : Kind) : bool :=
  match node t p with
  | Some r => bool_decide (kind r = k)
  | None => false
  end.

(** Every object a construct holds is a construct of the tree, of the kind
    its place asks for. *)
Definition references_resolve (t : Tree) : bool :=
  forallb (λ e, forallb (λ ref, has_kind t ref.1 ref.2) (references e.2)) t.

(** No construct other than a stack holds an object of another stack. *)
Definition references_are_local (t : Tree) : bool :=
  forallb (λ e,
    match e.2 with
    | Stack _ _ => true
    | r => forallb (λ ref, path_prefixb (take 1 e.1) ref.1) (references r)
    end) t.

(** Every construct below a stack was created in a scope of the tree. *)
Definition scopes_exist (t : Tree) : bool :=
  forallb (λ e,
    match e.1 with
    | [] | [_] => true
    | p => match node t (removelast p) with Some _ => true | None => false end
    end) t.

(** The paths of a tree are pairwise distinct. *)
Fixpoint distinct_paths (ps : list Path) : bool :=
  match ps with
  | [] => true
  | p :: ps' => negb (existsb (path_eqb p) ps') && distinct_paths ps'
  end.

(** The export names the source gives to outputs.  (For a value that one
    stack passes to another the library adds exports of its own when the
    templates are written; these are not outputs of the source.) *)
Definition exports (t : Tree) : list string :=
  omap (λ e, match e.2 with
             | CfnOutput props => CfnOutput.exportName props
             | _ => None
             end) t.

(** ** Reading a construct tree: ports and targets *)

Definition portMappings (t : Tree) (p : Path)
    : option (list ContainerDefinition.PortMapping) :=
  match node t p with
  | Some (ContainerDefinition _ mappings) => Some mappings
  | _ => None
  end.

Definition targetGroup (t : Tree) (p : Path) : option ApplicationTargetGroup.Props :=
  match node t p with
  | Some (ApplicationTargetGroup props) => Some props
  | _ => None
  end.

Definition secret (t : Tree) (p : Path) : option Secret.Props :=
  match node t p with Some (Secret props) => Some props | _ => None end.

Definition ingress (t : Tree) (p : Path) : option (list SecurityGroup.IngressRule) :=
  match node t p with
  | Some (SecurityGroup _ rules) => Some rules
  | _ => None
  end.

Definition taskDefinition (t : Tree) (p : Path)
    : option FargateTaskDefinition.Props :=
  match node t p with
  | Some (FargateTaskDefinition props) => Some props
  | _ => None
  end.

Definition grantedRead (t : Tree) (p : Path) : option (list Path) :=
  match node t p with
  | Some (Role _ granted) => Some granted
  | _ => None
  end.

(** The targets of the target groups of a tree, each with the port of its
    group. *)
Definition targets (t : Tree) : list (Z * FargateService.LoadBalancerTarget) :=
  e ← t;
  match e.2 with
  | ApplicationTargetGroup props =>
      (λ target, (ApplicationTargetGroup.port props, target))
        <$> ApplicationTargetGroup.targets props
  | _ => []
  end.

(** A target resolves when its service runs a task definition that has a
    container of the name of the target, and this container maps the port
    of the target. *)
Definition target_resolves (t : Tree)
    (target : FargateService.LoadBalancerTarget) : bool :=
  match node t (FargateService.service target) with
  | Some (FargateService props) =>
      match portMappings t
              (FargateService.taskDefinition props
                 ++ [FargateService.containerName
                       (FargateService.options target)])%list with
      | Some mappings =>
          existsb (λ m, Z.eqb (ContainerDefinition.containerPort m)
                              (FargateService.containerPort
                                 (FargateService.options target)))
                  mappings
      | None => false
      end
  | _ => false
  end.

(** Whether a character occurs in a string. *)
Fixpoint occurs (c : Ascii.ascii) (s : string) : bool :=
  match s with
  | EmptyString => false
  | String d s' => Ascii.eqb d c || occurs c s'
  end.

(** More inputs of the examples. *)
Definition token_only : UDRFrontendStack.Props :=
  {| UDRFrontendStack.env := None;
     UDRFrontendStack.description := None;
     UDRFrontendStack.backendUrl := Some "http://backend.example";
     UDRFrontendStack.githubRepo := None;
     UDRFrontendStack.githubToken := Some "github-token" |}.

Definition no_slash : UDRFrontendStack.Props :=
  {| UDRFrontendStack.env := None;
     UDRFrontendStack.description := None;
     UDRFrontendStack.backendUrl := Some "http://backend.example";
     UDRFrontendStack.githubRepo := Some "udr";
     UDRFrontendStack.githubToken := Some "github-token" |}.

Definition region_from_context : App.Inputs :=
  {| App.context := list_to_map [("region", "eu-west-1")];
     App.process_env := list_to_map [("CDK_DEFAULT_REGION", "us-west-2")] |}.

(** * Properties *)

(** ** JavaScript values *)

(** [split] gives at least one piece, so [split(c)[0]] is always defined. *)
Lemma split_first sep s : is_Some (JS.split sep s !! 0%nat).
Proof.
  destruct s as [|c s]; cbn; [by eexists|].
  destruct (Ascii.eqb c sep); [by eexists|].
  destruct (JS.split sep s); by eexists.
Qed.

(** A string without the separator is one piece: [split(c)[1]] is
    [undefined]. *)
Lemma split_no_separator sep s :
  (∀ c, c ∈ String.list_ascii_of_string s → c ≠ sep) → JS.split sep s = [s].
Proof.
  induction s as [|c s IH]; intros Hs; [done|]. cbn.
  destruct (Ascii.eqb_spec c sep) as [->|_].
  - exfalso. apply (Hs sep); [|done]. cbn. by left.
  - rewrite IH; [done|]. intros c' Hc'. apply Hs. cbn. by right.
Qed.

Lemma truthy_narrow v : JS.truthy v = true ↔ ∃ s, JS.narrow v = Some s.
Proof.
  unfold JS.truthy. destruct (JS.narrow v); split; try done; eauto.
  by intros [? ?].
Qed.

Lemma narrow_nonempty v s : JS.narrow v = Some s → v = Some s ∧ s ≠ EmptyString.
Proof.
  destruct v as [[|c r]|]; cbn; intros [= <-]; by split.
Qed.

(** ** The construct tree *)

Lemma path_eqb_eq p q : path_eqb p q = true ↔ p = q.
Proof.
  revert q. induction p as [|a p IH]; intros [|b q]; cbn; try done.
  rewrite andb_true_iff, String.eqb_eq, IH. split.
  - by intros [-> ->].
  - by intros [= -> ->].
Qed.

Lemma path_eqb_refl p : path_eqb p p = true.
Proof. by apply path_eqb_eq. Qed.

Lemma node_app (t t' : Tree) p :
  node (t ++ t')%list p
  = match node t p with Some r => Some r | None => node t' p end.
Proof.
  induction t as [|[q r] t IH]; cbn; [done|]. by destruct (path_eqb q p).
Qed.

(** A construct with a fresh identifier is added at the end of the tree. *)
Lemma construct_fresh (scope : Path) id r t :
  node t (scope ++ [id])%list = None →
  construct scope id r t = inr (scope ++ [id], t ++ [(scope ++ [id], r)])%list.
Proof. unfold construct. by intros ->. Qed.

(** A second construct with the identifier of one of the scope throws. *)
Lemma construct_duplicate (scope : Path) id r t :
  is_Some (node t (scope ++ [id])%list) →
  construct scope id r t = inl (DuplicateConstruct (scope ++ [id])%list).
Proof. unfold construct. by intros [r' ->]. Qed.

(** Creating a construct gives a node with its properties and leaves the
    nodes of the tree as they are. *)
Lemma construct_node scope id r t p t' :
  construct scope id r t = inr (p, t') →
  node t' p = Some r ∧ ∀ q r', node t q = Some r' → node t' q = Some r'.
Proof.
  unfold construct. destruct (node t (scope ++ [id])%list) eqn:Hfresh; [done|].
  intros [= <- <-]. split.
  - rewrite node_app, Hfresh. cbn. by rewrite path_eqb_refl.
  - intros q r' Hq. by rewrite node_app, Hq.
Qed.

(** A change in place keeps the paths of the tree, changes the node it is
    aimed at and no other. *)
Lemma update_paths p f t t' :
  update p f t = inr ((), t') → t'.*1 = t.*1.
Proof.
  intros [= <-]. induction t as [|[q r] t IH]; cbn; [done|].
  rewrite IH. by destruct (path_eqb q p).
Qed.

Lemma update_node p f t t' q :
  update p f t = inr ((), t') →
  node t' q = if path_eqb p q then f <$> node t q else node t q.
Proof.
  intros [= <-]. induction t as [|[o r] t IH]; cbn.
  - by destruct (path_eqb p q).
  - destruct (path_eqb o p) eqn:Hop; cbn.
    + apply path_eqb_eq in Hop as ->.
      by destruct (path_eqb p q).
    + destruct (path_eqb o q) eqn:Hoq; [|done].
      apply path_eqb_eq in Hoq as ->.
      destruct (path_eqb p q) eqn:Hpq; [|done].
      apply path_eqb_eq in Hpq as ->. by rewrite path_eqb_refl in Hop.
Qed.

(** ** Outcomes *)

Lemma succeeds_inr {A : Type} `{Inhabited A} (o : Failure + (A * Tree)) :
  succeeds o = true → o = inr (object_of o, tree_of o).
Proof. by destruct o as [?|[??]]. Qed.

Lemma succeeds_not_raises {A : Type} (o : Failure + A) :
  succeeds o = true → ¬ raises o.
Proof. destruct o; [done|]. by intros _ [e ?]. Qed.

(** Runs a provisioning: its object and its tree are those of the outcome. *)
Ltac provisioned :=
  lazymatch goal with
  | |- ∃ s t, ?run = inr (s, t) ∧ _ =>
      exists (object_of run), (tree_of run);
      split; [apply succeeds_inr; reflexivity | ]
  end.

(** ** The frontend stack *)

Ltac frontend_cases props :=
  destruct props as [e d b [[|c r]|] [[|c' k]|]].

Example split_owner_repository :
  JS.split "/" "alice/udr" = ["alice"; "udr"].
Proof. reflexivity. Qed.

Example split_without_slash : JS.split "/" "udr" !! 1%nat = None.
Proof. reflexivity. Qed.

Example frontend_tree_repo_only :
  fst <$> tree_of (@provision_frontend example_cloud repo_only)
  = [ ["UDRFrontendStack"];
      ["UDRFrontendStack"; "AmplifyServiceRole"];
      ["UDRFrontendStack"; "UDRAmplifyApp"];
      ["UDRFrontendStack"; "UDRAmplifyApp"; "MainBranch"];
      ["UDRFrontendStack"; "FrontendURL"];
      ["UDRFrontendStack"; "AmplifyAppId"];
      ["UDRFrontendStack"; "AmplifyAppName"] ].
Proof. reflexivity. Qed.

(** Every branch of the constructor reaches its end: the frontend stack of
    a fresh application is always provisioned, with one application shell. *)
Lemma frontend_provisioned `{Cloud} props :
  ∃ s t, provision_frontend props = inr (s, t) ∧
         app_shells t = [UDRFrontendStack.amplifyApp s].
Proof. frontend_cases props; provisioned; reflexivity. Qed.

(** The application is bound to a repository exactly when the repository
    and the credential are both supplied. *)
Lemma frontend_connected_iff `{Cloud} props :
  connected (tree_of (provision_frontend props))
            (UDRFrontendStack.amplifyApp (object_of (provision_frontend props)))
  ↔ both_supplied props.
Proof.
  frontend_cases props;
    (split;
     [ intros [provider Hp]; lazy in Hp;
       first [ discriminate Hp | split; reflexivity ]
     | intros [Hr Hk]; lazy in Hr, Hk;
       first [ discriminate Hr | discriminate Hk | eexists; reflexivity ] ]).
Qed.

Lemma frontend_disconnected_iff `{Cloud} props :
  disconnected (tree_of (provision_frontend props))
               (UDRFrontendStack.amplifyApp (object_of (provision_frontend props)))
  ↔ ¬ both_supplied props.
Proof.
  frontend_cases props;
    (split;
     [ intros Hd [Hr Hk]; lazy in Hd, Hr, Hk;
       first [ discriminate Hd | discriminate Hr | discriminate Hk ]
     | intros Hn; first [ reflexivity | destruct Hn; split; reflexivity ] ]).
Qed.

(** A second frontend stack of the same identifier is refused. *)
Example second_frontend_stack_is_refused :
  @UDRFrontendStack.new example_cloud [] "UDRFrontendStack" repo_only
    (tree_of (@provision_frontend example_cloud repo_only))
  = inl (DuplicateConstruct ["UDRFrontendStack"]).
Proof. reflexivity. Qed.

(** C1, evaluated: the dry-run flag of the build environment is [true]
    whatever the properties are, also when a backend URL is supplied and
    becomes the base URL of the build; the flag is never [false]. *)
Theorem dry_run_flag_is_constant `{Cloud} props :
  ∃ s t,
    provision_frontend props = inr (s, t) ∧
    Forall (λ env, env ≫= (.!! "NEXT_PUBLIC_DRY_RUN") = Some "true")
      (build_environments t (UDRFrontendStack.amplifyApp s)
                            (UDRFrontendStack.mainBranch s)).
Proof.
  frontend_cases props; provisioned; repeat constructor.
Qed.

Example dry_run_flag_with_backend :
  Forall (λ env,
      env ≫= (.!! "NEXT_PUBLIC_BACKEND_BASE_URL") = Some "http://backend.example" ∧
      env ≫= (.!! "NEXT_PUBLIC_DRY_RUN") = Some "true")
    (build_environments (tree_of (@provision_frontend example_cloud repo_only))
       ["UDRFrontendStack"; "UDRAmplifyApp"]
       ["UDRFrontendStack"; "UDRAmplifyApp"; "MainBranch"]).
Proof. repeat constructor. Qed.

(** C2, as stated, fails: with a repository and no credential the
    constructor does not throw; it creates the application shell, by the
    disconnected path. *)
Lemma half_pair_is_not_rejected :
  exactly_one_supplied repo_only ∧
  ¬ raises (@provision_frontend example_cloud repo_only) ∧
  created_shells (@provision_frontend example_cloud repo_only)
    = [["UDRFrontendStack"; "UDRAmplifyApp"]] ∧
  disconnected (tree_of (@provision_frontend example_cloud repo_only))
    ["UDRFrontendStack"; "UDRAmplifyApp"] ∧
  ¬ @rejects_half_pair example_cloud repo_only ∧
  ¬ @disconnected_only_when_neither example_cloud repo_only.
Proof.
  split_and!.
  - done.
  - by apply succeeds_not_raises.
  - reflexivity.
  - reflexivity.
  - intros Hclaim. destruct Hclaim as [_ Hshells]; [done|]. discriminate Hshells.
  - intros Hclaim. destruct Hclaim as [Hrepo _]; [reflexivity|]. discriminate Hrepo.
Qed.

(** C2, amended: with exactly one of the repository and the credential
    supplied, provisioning does not raise; it creates the one application
    shell by the disconnected path, without a repository.  The connected
    path is taken exactly when both are supplied. *)
Theorem half_pair_is_disconnected `{Cloud} props :
  ∃ s t,
    provision_frontend props = inr (s, t) ∧
    app_shells t = [UDRFrontendStack.amplifyApp s] ∧
    (exactly_one_supplied props →
       disconnected t (UDRFrontendStack.amplifyApp s)) ∧
    (connected t (UDRFrontendStack.amplifyApp s) ↔ both_supplied props).
Proof.
  exists (object_of (provision_frontend props)),
         (tree_of (provision_frontend props)).
  split_and!.
  - apply succeeds_inr. by frontend_cases props.
  - by frontend_cases props.
  - frontend_cases props; intros Hone; first [ reflexivity | by destruct Hone ].
  - apply frontend_connected_iff.
Qed.

Lemma half_pair_is_disconnected_witness :
  exactly_one_supplied repo_only ∧
  ∃ s t,
    @provision_frontend example_cloud repo_only = inr (s, t) ∧
    disconnected t (UDRFrontendStack.amplifyApp s).
Proof.
  split; [done|].
  destruct (@half_pair_is_disconnected example_cloud repo_only)
    as (s & t & Hrun & _ & Hdis & _).
  exists s, t. split; [exact Hrun|]. apply Hdis. done.
Defined.

(** C5: with neither a repository nor a credential, provisioning succeeds
    by the disconnected path, creates the placeholder branch [webhook] with
    automatic build disabled, and gives the webhook URL as an output. *)
Theorem neither_supplied_gives_webhook `{Cloud} props :
  neither_supplied props →
  ∃ s t,
    provision_frontend props = inr (s, t) ∧
    disconnected t (UDRFrontendStack.amplifyApp s) ∧
    node t (UDRFrontendStack.amplifyApp s ++ ["WebhookBranch"])%list
      = Some (AmplifyBranch (UDRFrontendStack.amplifyApp s)
                {| Branch.autoBuild := false;
                   Branch.branchName := "webhook";
                   Branch.environmentVariables := None |}) ∧
    output t (UDRFrontendStack.this s) "WebhookURL"
      = Some ("https://webhooks.amplify."
                +:+ region (UDRFrontendStack.this s) (UDRFrontendStack.stackProps props)
                +:+ ".amazonaws.com/prod/webhooks?id="
                +:+ appId (UDRFrontendStack.amplifyApp s)
                +:+ "&token=<token>&operation=startbuild").
Proof.
  intros [Hr Hk]. frontend_cases props; try discriminate Hr; try discriminate Hk;
    provisioned; split_and!; reflexivity.
Qed.

Lemma neither_supplied_gives_webhook_witness :
  neither_supplied no_repo_no_backend ∧
  ∃ s t,
    @provision_frontend example_cloud no_repo_no_backend = inr (s, t) ∧
    disconnected t (UDRFrontendStack.amplifyApp s) ∧
    is_Some (output t (UDRFrontendStack.this s) "WebhookURL").
Proof.
  assert (Hn : neither_supplied no_repo_no_backend) by (split; reflexivity).
  split; [exact Hn|].
  destruct (@neither_supplied_gives_webhook example_cloud no_repo_no_backend Hn)
    as (s & t & Hrun & Hdis & _ & Hout).
  exists s, t. split_and!; [exact Hrun | exact Hdis | by rewrite Hout].
Defined.

Example webhook_url_of_example :
  output (tree_of (@provision_frontend example_cloud no_repo_no_backend))
    ["UDRFrontendStack"] "WebhookURL"
  = Some ("https://webhooks.amplify.AWS::Region.amazonaws.com"
            +:+ "/prod/webhooks?id=d1a2b3c4&token=<token>&operation=startbuild").
Proof. reflexivity. Qed.

(** With a repository and no credential there is no webhook branch. *)
Example repo_only_has_no_webhook :
  output (tree_of (@provision_frontend example_cloud repo_only))
    ["UDRFrontendStack"] "WebhookURL" = None.
Proof. reflexivity. Qed.

(** The application shell carries the build specification of the source,
    and the hosted URL is computed from the branch and the default domain,
    whichever path is taken. *)
Lemma frontend_build_and_url `{Cloud} props :
  ∃ s t,
    provision_frontend props = inr (s, t) ∧
    AmplifyApp.buildSpec <$> amplifyApp t (UDRFrontendStack.amplifyApp s)
      = Some (UDRFrontendStack.buildSpec props) ∧
    UDRFrontendStack.frontendUrl s
      = "https://" +:+ branchName (UDRFrontendStack.mainBranch s)
          +:+ "." +:+ defaultDomain (UDRFrontendStack.amplifyApp s).
Proof. frontend_cases props; provisioned; split; reflexivity. Qed.

Lemma buildSpec_depends_on_backendUrl p p' :
  UDRFrontendStack.backendUrl p = UDRFrontendStack.backendUrl p' →
  UDRFrontendStack.buildSpec p = UDRFrontendStack.buildSpec p'.
Proof.
  intros Hb. unfold UDRFrontendStack.buildSpec, UDRFrontendStack.environmentVariables.
  by rewrite Hb.
Qed.

(** C8: a provisioning on the connected path and one on the disconnected
    path, given the same backend URL, carry one and the same build
    specification (change into the frontend directory and install, build
    for production, take the artifacts from the build output directory,
    keep the dependency and build caches), and both compute the hosted URL
    as [https://<branch>.<default-domain>]. *)
Theorem paths_share_build_specification `{Cloud} p p' :
  UDRFrontendStack.backendUrl p = UDRFrontendStack.backendUrl p' →
  both_supplied p →
  ¬ both_supplied p' →
  ∃ s t s' t' spec,
    provision_frontend p = inr (s, t) ∧
    connected t (UDRFrontendStack.amplifyApp s) ∧
    provision_frontend p' = inr (s', t') ∧
    disconnected t' (UDRFrontendStack.amplifyApp s') ∧
    AmplifyApp.buildSpec <$> amplifyApp t (UDRFrontendStack.amplifyApp s) = Some spec ∧
    AmplifyApp.buildSpec <$> amplifyApp t' (UDRFrontendStack.amplifyApp s') = Some spec ∧
    BuildSpec.applications spec =
      [ {| BuildSpec.frontend :=
             {| BuildSpec.phases :=
                  {| BuildSpec.preBuild :=
                       {| BuildSpec.commands :=
                            ["cd frontend"; "npm ci --cache .npm --prefer-offline"] |};
                     BuildSpec.build :=
                       {| BuildSpec.commands := ["npm run build"] |} |};
                BuildSpec.artifacts :=
                  {| BuildSpec.baseDirectory := "frontend/.next";
                     BuildSpec.files := ["**/*"] |};
                BuildSpec.cache :=
                  {| BuildSpec.paths :=
                       ["frontend/node_modules/**/*";
                        "frontend/.next/cache/**/*"] |} |} |} ] ∧
    UDRFrontendStack.frontendUrl s
      = "https://" +:+ branchName (UDRFrontendStack.mainBranch s)
          +:+ "." +:+ defaultDomain (UDRFrontendStack.amplifyApp s) ∧
    UDRFrontendStack.frontendUrl s'
      = "https://" +:+ branchName (UDRFrontendStack.mainBranch s')
          +:+ "." +:+ defaultDomain (UDRFrontendStack.amplifyApp s').
Proof.
  intros Hb Hboth Hnot.
  apply frontend_connected_iff in Hboth.
  apply frontend_disconnected_iff in Hnot.
  destruct (frontend_build_and_url p) as (s & t & Hrun & Hspec & Hurl).
  destruct (frontend_build_and_url p') as (s' & t' & Hrun' & Hspec' & Hurl').
  rewrite Hrun in Hboth. rewrite Hrun' in Hnot.
  exists s, t, s', t', (UDRFrontendStack.buildSpec p).
  split_and!; try done.
  by rewrite Hspec', (buildSpec_depends_on_backendUrl p p' Hb).
Qed.

Lemma paths_share_build_specification_witness :
  both_supplied alice_connected ∧
  ¬ both_supplied repo_only ∧
  ∃ s t s' t' spec,
    @provision_frontend example_cloud alice_connected = inr (s, t) ∧
    @provision_frontend example_cloud repo_only = inr (s', t') ∧
    AmplifyApp.buildSpec <$> amplifyApp t (UDRFrontendStack.amplifyApp s) = Some spec ∧
    AmplifyApp.buildSpec <$> amplifyApp t' (UDRFrontendStack.amplifyApp s') = Some spec.
Proof.
  assert (Hboth : both_supplied alice_connected) by (split; reflexivity).
  assert (Hnot : ¬ both_supplied repo_only) by (intros [_ Hk]; discriminate Hk).
  split_and!; [exact Hboth | exact Hnot |].
  destruct (@paths_share_build_specification example_cloud
              alice_connected repo_only eq_refl Hboth Hnot)
    as (s & t & s' & t' & spec & Hrun & _ & Hrun' & _ & Hspec & Hspec' & _).
  exists s, t, s', t', spec. split_and!; assumption.
Defined.

Example hosted_url_of_example :
  UDRFrontendStack.frontendUrl
    (object_of (@provision_frontend example_cloud alice_connected))
  = "https://main.d1a2b3c4.amplifyapp.com" ∧
  UDRFrontendStack.frontendUrl
    (object_of (@provision_frontend example_cloud repo_only))
  = "https://main.d1a2b3c4.amplifyapp.com".
Proof. split; reflexivity. Qed.

(** C10: when the backend URL is omitted or empty, every build environment
    of the frontend has [NEXT_PUBLIC_BACKEND_BASE_URL] set to the fallback
    [http://localhost:8000]; provisioning does not fail. *)
Theorem missing_backend_url_falls_back `{Cloud} props :
  UDRFrontendStack.backendUrl props = None ∨
  UDRFrontendStack.backendUrl props = Some EmptyString →
  ∃ s t,
    provision_frontend props = inr (s, t) ∧
    Forall (λ env, env ≫= (.!! "NEXT_PUBLIC_BACKEND_BASE_URL")
                     = Some "http://localhost:8000")
      (build_environments t (UDRFrontendStack.amplifyApp s)
                            (UDRFrontendStack.mainBranch s)).
Proof.
  intros Hb. frontend_cases props; cbn in Hb;
    (destruct Hb as [-> | ->]; provisioned; repeat constructor).
Qed.

Lemma missing_backend_url_falls_back_witness :
  UDRFrontendStack.backendUrl no_repo_no_backend = None ∧
  ∃ s t,
    @provision_frontend example_cloud no_repo_no_backend = inr (s, t) ∧
    Forall (λ env, env ≫= (.!! "NEXT_PUBLIC_BACKEND_BASE_URL")
                     = Some "http://localhost:8000")
      (build_environments t (UDRFrontendStack.amplifyApp s)
                            (UDRFrontendStack.mainBranch s)).
Proof.
  split; [reflexivity|].
  exact (@missing_backend_url_falls_back example_cloud no_repo_no_backend
           (or_introl eq_refl)).
Defined.

(** ** The backend stack *)

(** An environment that names an account and a region has a non-empty
    string for each. *)
Ltac backend_cases props Henv :=
  destruct props as [[[[[|a account]|] [[|c region']|]]|] d g];
  lazy in Henv; try discriminate Henv; clear Henv.

Lemma backend_provisioned `{Cloud} props :
  environment_is_given (UDRBackendStack.env props) = true →
  succeeds (provision_backend props) = true.
Proof. intros Henv. backend_cases props Henv. reflexivity. Qed.

Example backend_tree_paths `{Cloud} props :
  environment_is_given (UDRBackendStack.env props) = true →
  fst <$> tree_of (provision_backend props)
  = [ ["UDRBackendStack"];
      ["UDRBackendStack"; "VPC"];
      ["UDRBackendStack"; "UDRBackendCluster"];
      ["UDRBackendStack"; "UDRBackendSecrets"];
      ["UDRBackendStack"; "BackendTaskRole"];
      ["UDRBackendStack"; "BackendTaskDef"];
      ["UDRBackendStack"; "BackendTaskDef"; "BackendContainer"];
      ["UDRBackendStack"; "BackendSecurityGroup"];
      ["UDRBackendStack"; "BackendService"];
      ["UDRBackendStack"; "BackendALB"];
      ["UDRBackendStack"; "BackendTargets"];
      ["UDRBackendStack"; "BackendALB"; "BackendListener"];
      ["UDRBackendStack"; "BackendALB"; "BackendListener"; "CorsActionRule"];
      ["UDRBackendStack"; "BackendURL"];
      ["UDRBackendStack"; "BackendALBArn"];
      ["UDRBackendStack"; "BackendClusterName"];
      ["UDRBackendStack"; "BackendServiceName"] ].
Proof. intros Henv. backend_cases props Henv. reflexivity. Qed.

(** The calls that change a construct in place reach it.  The security
    group has the rule of the source and the rule the library adds when the
    service is put behind the listener; the rule [CorsAction] forwards to
    the same service on the same port, so it adds none. *)
Example backend_in_place_changes `{Cloud} props :
  environment_is_given (UDRBackendStack.env props) = true →
  let t := tree_of (provision_backend props) in
  (∃ role, node t ["UDRBackendStack"; "BackendTaskRole"]
           = Some (Role role [["UDRBackendStack"; "UDRBackendSecrets"]])) ∧
  (∃ options, node t ["UDRBackendStack"; "BackendTaskDef"; "BackendContainer"]
           = Some (ContainerDefinition options
                     [ {| ContainerDefinition.containerPort := 8000;
                          ContainerDefinition.protocol := ContainerDefinition.TCP |} ])) ∧
  (∃ sg, node t ["UDRBackendStack"; "BackendSecurityGroup"]
           = Some (SecurityGroup sg
                     [ {| SecurityGroup.peer := SecurityGroup.anyIpv4;
                          SecurityGroup.connection := SecurityGroup.tcp 8000;
                          SecurityGroup.ruleDescription :=
                            "Allow HTTP traffic to backend" |};
                       {| SecurityGroup.peer :=
                            SecurityGroup.securityGroupsOf
                              ["UDRBackendStack"; "BackendALB"];
                          SecurityGroup.connection := SecurityGroup.tcp 8000;
                          SecurityGroup.ruleDescription :=
                            "Load balancer to target" |} ])).
Proof.
  intros Henv. backend_cases props Henv. split_and!; eexists; reflexivity.
Qed.

Example backend_without_environment_throws :
  @provision_backend example_cloud backend_without_environment
    = inl (StackAccountRegionNotSpecified ["UDRBackendStack"]).
Proof. reflexivity. Qed.

(** Where the listener of the backend sends a request. *)
Lemma backend_route `{Cloud} props r :
  environment_is_given (UDRBackendStack.env props) = true →
  route (tree_of (provision_backend props))
    ["UDRBackendStack"; "BackendALB"; "BackendListener"] r
  = Some (if origin_matches "*.amplifyapp.com" r then Some 100 else None,
          ApplicationListener.forward [["UDRBackendStack"; "BackendTargets"]]).
Proof.
  intros Henv. backend_cases props Henv.
  unfold route. set (t := tree_of (provision_backend _)).
  replace (rules t ["UDRBackendStack"; "BackendALB"; "BackendListener"])
    with [ {| ApplicationListener.priority := 100;
              ApplicationListener.conditions :=
                [ApplicationListener.httpHeader "Origin" ["*.amplifyapp.com"]];
              ApplicationListener.action :=
                ApplicationListener.forward [["UDRBackendStack"; "BackendTargets"]] |} ]
    by reflexivity.
  replace (node t ["UDRBackendStack"; "BackendALB"; "BackendListener"])
    with (Some (ApplicationListener
            {| ApplicationListener.port := 80;
               ApplicationListener.defaultAction :=
                 ApplicationListener.forward [["UDRBackendStack"; "BackendTargets"]] |}))
    by reflexivity.
  unfold origin_matches. cbn -[wildcard_match header].
  destruct (header "Origin" r) as [origin|]; [|reflexivity].
  by destruct (wildcard_match "*.amplifyapp.com" origin).
Qed.

(** C6: when the backend is provisioned in an environment that names an
    account and a region (without one the constructor throws), the listener
    of the backend load balancer has one rule, of priority 100, that
    forwards a request whose [Origin] header matches [*.amplifyapp.com] to
    the backend target group; every other request is left to the default
    action of the listener, which forwards to that target group as well. *)
Theorem cors_rule_forwards_frontend_origin `{Cloud} props :
  environment_is_given (UDRBackendStack.env props) = true →
  ∃ s t,
    provision_backend props = inr (s, t) ∧
    let backendListener :=
      (UDRBackendStack.this s ++ ["BackendALB"; "BackendListener"])%list in
    let toBackend :=
      ApplicationListener.forward
        [(UDRBackendStack.this s ++ ["BackendTargets"])%list] in
    rules t backendListener =
      [ {| ApplicationListener.priority := 100;
           ApplicationListener.conditions :=
             [ApplicationListener.httpHeader "Origin" ["*.amplifyapp.com"]];
           ApplicationListener.action := toBackend |} ] ∧
    ApplicationListener.defaultAction <$> listener t backendListener
      = Some toBackend ∧
    ∀ r : Request,
      route t backendListener r =
        Some (if origin_matches "*.amplifyapp.com" r
              then (Some 100, toBackend)
              else (None, toBackend)).
Proof.
  intros Henv.
  exists (object_of (provision_backend props)),
         (tree_of (provision_backend props)).
  split; [by apply succeeds_inr, backend_provisioned|].
  replace (UDRBackendStack.this (object_of (provision_backend props)))
    with ["UDRBackendStack"]
    by (backend_cases props Henv; reflexivity).
  cbn [app]. split_and!.
  - backend_cases props Henv. reflexivity.
  - backend_cases props Henv. reflexivity.
  - intros r. rewrite backend_route by exact Henv.
    by destruct (origin_matches "*.amplifyapp.com" r).
Qed.

Lemma cors_rule_forwards_frontend_origin_witness :
  environment_is_given (UDRBackendStack.env backend_in_account) = true ∧
  ∃ s t,
    @provision_backend example_cloud backend_in_account = inr (s, t) ∧
    ApplicationListener.priority
      <$> rules t (UDRBackendStack.this s ++ ["BackendALB"; "BackendListener"])%list
      = [100] ∧
    @route example_cloud t
      (UDRBackendStack.this s ++ ["BackendALB"; "BackendListener"])%list
      [("Origin", "https://main.d1a2b3c4.amplifyapp.com")]
    = Some (Some 100,
            ApplicationListener.forward
              [(UDRBackendStack.this s ++ ["BackendTargets"])%list]).
Proof.
  split; [reflexivity|].
  destruct (@cors_rule_forwards_frontend_origin example_cloud
              backend_in_account eq_refl)
    as (s & t & Hrun & Hrules & _ & Hroute).
  exists s, t. split_and!; [exact Hrun | by rewrite Hrules | by rewrite Hroute].
Defined.

Example request_from_frontend_uses_rule :
  @route example_cloud
    (tree_of (@provision_backend example_cloud backend_in_account))
    ["UDRBackendStack"; "BackendALB"; "BackendListener"]
    [("Host", "backend.example");
     ("Origin", "https://main.d1a2b3c4.amplifyapp.com")]
  = Some (Some 100,
          ApplicationListener.forward [["UDRBackendStack"; "BackendTargets"]]).
Proof. reflexivity. Qed.

Example request_from_elsewhere_uses_default :
  @route example_cloud
    (tree_of (@provision_backend example_cloud backend_in_account))
    ["UDRBackendStack"; "BackendALB"; "BackendListener"]
    [("Host", "backend.example"); ("Origin", "https://other.example")]
  = Some (None,
          ApplicationListener.forward [["UDRBackendStack"; "BackendTargets"]]).
Proof. reflexivity. Qed.

(** C7: when the backend is provisioned in an environment that names an
    account and a region (without one the constructor throws), the health
    check of the backend container polls the root path of the container
    port with [curl], every 30 seconds, with a timeout of 5 seconds, 3
    retries and a start period of 60 seconds. *)
Theorem backend_health_check `{Cloud} props :
  environment_is_given (UDRBackendStack.env props) = true →
  ∃ s t,
    provision_backend props = inr (s, t) ∧
    container t (UDRBackendStack.this s ++ ["BackendTaskDef"; "BackendContainer"])%list
      ≫= ContainerDefinition.healthCheck
    = Some {| HealthCheck.command :=
                ["CMD-SHELL"; "curl -f http://localhost:8000/ || exit 1"];
              HealthCheck.interval := Duration.seconds 30;
              HealthCheck.timeout := Duration.seconds 5;
              HealthCheck.retries := 3;
              HealthCheck.startPeriod := Duration.seconds 60 |}.
Proof. intros Henv. backend_cases props Henv. provisioned. reflexivity. Qed.

Lemma backend_health_check_witness :
  environment_is_given (UDRBackendStack.env backend_in_account) = true ∧
  ∃ s t,
    @provision_backend example_cloud backend_in_account = inr (s, t) ∧
    HealthCheck.retries
      <$> (container t (UDRBackendStack.this s
                          ++ ["BackendTaskDef"; "BackendContainer"])%list
             ≫= ContainerDefinition.healthCheck)
    = Some 3.
Proof.
  split; [reflexivity|].
  destruct (@backend_health_check example_cloud backend_in_account eq_refl)
    as (s & t & Hrun & Hcheck).
  exists s, t. split; [exact Hrun | by rewrite Hcheck].
Defined.

(** ** The application *)

(** A run that knows its account has a non-empty string for it; beyond
    that it branches only on the repository and the credential of the
    context: the cases are those of their truthiness. *)
Ltac app_cases i Hacc :=
  destruct i as [ctx penv];
  unfold account_is_given, App.synth, App.main, App.env, App.tryGetContext in *;
  cbn [App.context App.process_env Environment.account] in *;
  revert Hacc;
  generalize (JS.or (ctx !! "account") (penv !! "CDK_DEFAULT_ACCOUNT"))
             (ctx !! "github_repo") (ctx !! "github_token_secret")
             (ctx !! "region") (penv !! "CDK_DEFAULT_REGION");
  intros [[|a account]|] [[|c r]|] [[|c' k]|] region' region'' Hacc;
  lazy in Hacc; try discriminate Hacc; clear Hacc.

Lemma succeeds_graph (o : Failure + Tree) :
  succeeds o = true → o = inr (graph_of o).
Proof. by destruct o. Qed.

(** The application of a run that knows its account synthesizes. *)
Lemma synth_succeeds `{Cloud} i :
  account_is_given i = true → succeeds (App.synth i) = true.
Proof. intros Hacc. app_cases i Hacc; reflexivity. Qed.

Lemma main_succeeds `{Cloud} i :
  account_is_given i = true → succeeds (App.main i []) = true.
Proof. intros Hacc. app_cases i Hacc; reflexivity. Qed.

(** The frontend stack of the application is the frontend stack of a fresh
    application, given the URL of the backend and the repository and the
    credential of the context; only the node of the stack itself differs,
    by the dependency the application adds to it. *)
Lemma app_frontend_as_fresh `{Cloud} i :
  account_is_given i = true →
  ∃ app t props,
    App.main i [] = inr (app, t) ∧
    UDRFrontendStack.backendUrl props
      = Some (UDRBackendStack.backendUrl (App.backendStack app)) ∧
    UDRFrontendStack.githubRepo props = App.tryGetContext i "github_repo" ∧
    UDRFrontendStack.githubToken props
      = App.tryGetContext i "github_token_secret" ∧
    App.frontendStack app = object_of (provision_frontend props) ∧
    drop 1 (subtree t frontendStack)
      = drop 1 (tree_of (provision_frontend props)).
Proof.
  intros Hacc.
  exists (object_of (App.main i [])), (tree_of (App.main i [])),
    {| UDRFrontendStack.env := Some (App.env i);
       UDRFrontendStack.description :=
         Some "Universal Deep Research Frontend (Next.js + Amplify)";
       UDRFrontendStack.backendUrl :=
         Some (UDRBackendStack.backendUrl
                 (App.backendStack (object_of (App.main i []))));
       UDRFrontendStack.githubRepo := App.tryGetContext i "github_repo";
       UDRFrontendStack.githubToken := App.tryGetContext i "github_token_secret" |}.
  split; [by apply succeeds_inr, main_succeeds|].
  split_and!; [reflexivity | reflexivity | reflexivity | |];
    unfold provision_frontend; app_cases i Hacc; reflexivity.
Qed.

(** C3: in every deployment of a run that knows its account (a run that
    does not throws while it builds the backend stack, and deploys
    nothing) the backend container has [LLM_BASE_URL] set to the URL of
    the gateway followed by [/v1], and every build environment of the
    frontend has [NEXT_PUBLIC_BACKEND_BASE_URL] set to the URL of the
    backend; these URLs are the ones the two stacks give as outputs. *)
Theorem endpoints_are_propagated `{Cloud} i :
  account_is_given i = true →
  ∃ app t,
    App.main i [] = inr (app, t) ∧
    let gateway := App.gatewayStack app in
    let backend := App.backendStack app in
    let frontend := App.frontendStack app in
    output t (BedrockGatewayStack.this gateway) "GatewayURL"
      = Some (BedrockGatewayStack.gatewayUrl gateway) ∧
    (ContainerDefinition.environment
       <$> container t (UDRBackendStack.this backend
                          ++ ["BackendTaskDef"; "BackendContainer"])%list)
      ≫= (.!! "LLM_BASE_URL")
      = Some (BedrockGatewayStack.gatewayUrl gateway +:+ "/v1") ∧
    output t (UDRBackendStack.this backend) "BackendURL"
      = Some (UDRBackendStack.backendUrl backend) ∧
    Forall (λ env, env ≫= (.!! "NEXT_PUBLIC_BACKEND_BASE_URL")
                     = Some (UDRBackendStack.backendUrl backend))
      (build_environments t (UDRFrontendStack.amplifyApp frontend)
                            (UDRFrontendStack.mainBranch frontend)).
Proof.
  intros Hacc.
  exists (object_of (App.main i [])), (tree_of (App.main i [])).
  split; [by apply succeeds_inr, main_succeeds|].
  app_cases i Hacc; split_and!; first [reflexivity | repeat constructor].
Qed.

Lemma endpoints_are_propagated_witness :
  account_is_given alice_udr = true ∧
  ∃ app t,
    @App.main example_cloud alice_udr [] = inr (app, t) ∧
    (ContainerDefinition.environment
       <$> container t (UDRBackendStack.this (App.backendStack app)
                          ++ ["BackendTaskDef"; "BackendContainer"])%list)
      ≫= (.!! "LLM_BASE_URL")
      = Some (BedrockGatewayStack.gatewayUrl (App.gatewayStack app) +:+ "/v1") ∧
    Forall (λ env, env ≫= (.!! "NEXT_PUBLIC_BACKEND_BASE_URL")
                     = Some (UDRBackendStack.backendUrl (App.backendStack app)))
      (build_environments t
         (UDRFrontendStack.amplifyApp (App.frontendStack app))
         (UDRFrontendStack.mainBranch (App.frontendStack app))).
Proof.
  split; [reflexivity|].
  destruct (@endpoints_are_propagated example_cloud alice_udr eq_refl)
    as (app & t & Hrun & _ & Hllm & _ & Hfront).
  exists app, t. split_and!; [exact Hrun | exact Hllm | exact Hfront].
Defined.

(** The end-to-end scenario: repository [alice/udr], credential
    [github-token], gateway at [gw.example], backend at [backend.example]. *)
Example end_to_end_scenario :
  let run := @App.main example_cloud alice_udr [] in
  let t := tree_of run in
  BedrockGatewayStack.gatewayUrl (App.gatewayStack (object_of run))
    = "http://gw.example" ∧
  (ContainerDefinition.environment
     <$> container t ["UDRBackendStack"; "BackendTaskDef"; "BackendContainer"])
    ≫= (.!! "LLM_BASE_URL") = Some "http://gw.example/v1" ∧
  (AmplifyApp.environmentVariables
     <$> amplifyApp t ["UDRFrontendStack"; "UDRAmplifyApp"])
    ≫= (.!! "NEXT_PUBLIC_BACKEND_BASE_URL") = Some "http://backend.example" ∧
  (AmplifyApp.sourceCodeProvider
     <$> amplifyApp t ["UDRFrontendStack"; "UDRAmplifyApp"])
    = Some (Some {| AmplifyApp.owner := Some "alice";
                    AmplifyApp.repository := Some "udr";
                    AmplifyApp.oauthToken :=
                      AmplifyApp.secretsManager "github-token" |}) ∧
  (Branch.autoBuild
     <$> branch t ["UDRFrontendStack"; "UDRAmplifyApp"; "MainBranch"])
    = Some true.
Proof. split_and!; reflexivity. Qed.

(** The same scenario where nothing names an account: the run throws in
    the lookup of the backend stack. *)
Example scenario_without_account_throws :
  @App.synth example_cloud alice_udr_without_account
    = inl (StackAccountRegionNotSpecified ["UDRBackendStack"]).
Proof. reflexivity. Qed.

(** ** The order of provisioning *)

Section Chain.
Variable t : Tree.
Hypothesis three_stacks : stacks t = [gatewayStack; backendStack; frontendStack].
Hypothesis chain :
  dependencies t = [(backendStack, gatewayStack); (frontendStack, backendStack)].

(** The orders of three stacks: the six permutations. *)
Lemma orders_of_three order :
  order ≡ₚ stacks t →
  order ∈ permutations [gatewayStack; backendStack; frontendStack].
Proof.
  rewrite three_stacks. intros Hp. by apply permutations_Permutation.
Qed.

Lemma chain_deploy_order order :
  deploy_order t order ↔ order = [gatewayStack; backendStack; frontendStack].
Proof.
  unfold deploy_order. split.
  - intros [Hp Hd]. apply orders_of_three in Hp. rewrite chain in Hd.
    vm_compute in Hp.
    repeat (apply elem_of_cons in Hp as [-> | Hp]);
      [ .. | by apply elem_of_nil in Hp ];
      first [ reflexivity | discriminate Hd ].
  - intros ->. rewrite three_stacks, chain. by split.
Qed.

Lemma chain_destroy_order order :
  destroy_order t order ↔ order = [frontendStack; backendStack; gatewayStack].
Proof.
  unfold destroy_order. split.
  - intros [Hp Hd]. apply orders_of_three in Hp. rewrite chain in Hd.
    vm_compute in Hp.
    repeat (apply elem_of_cons in Hp as [-> | Hp]);
      [ .. | by apply elem_of_nil in Hp ];
      first [ reflexivity | discriminate Hd ].
  - intros ->. rewrite three_stacks, chain. split; [|reflexivity].
    apply Permutation_rev.
Qed.

End Chain.

(** C4: the application of a run that knows its account (a run that does
    not throws and deploys nothing) declares that the backend depends on
    the gateway and the frontend on the backend, and nothing else.  So the
    only order in which the three stacks can be deployed, each after the
    stacks it depends on, is gateway, backend, frontend; and the only order
    in which they can be destroyed is frontend, backend, gateway. *)
Theorem provisioning_order_is_linear `{Cloud} i :
  account_is_given i = true →
  ∃ t,
    App.synth i = inr t ∧
    stacks t = [gatewayStack; backendStack; frontendStack] ∧
    dependencies t
      = [(backendStack, gatewayStack); (frontendStack, backendStack)] ∧
    ∀ order,
      (deploy_order t order
         ↔ order = [gatewayStack; backendStack; frontendStack]) ∧
      (destroy_order t order
         ↔ order = [frontendStack; backendStack; gatewayStack]).
Proof.
  intros Hacc.
  exists (graph_of (App.synth i)).
  assert (Hs : stacks (graph_of (App.synth i))
               = [gatewayStack; backendStack; frontendStack])
    by (app_cases i Hacc; reflexivity).
  assert (Hd : dependencies (graph_of (App.synth i))
               = [(backendStack, gatewayStack); (frontendStack, backendStack)])
    by (app_cases i Hacc; reflexivity).
  split_and!; [by apply succeeds_graph, synth_succeeds | exact Hs | exact Hd |].
  intros order. split.
  - by apply chain_deploy_order.
  - by apply chain_destroy_order.
Qed.

Lemma provisioning_order_is_linear_witness :
  account_is_given alice_udr = true ∧
  ∃ t,
    @App.synth example_cloud alice_udr = inr t ∧
    deploy_order t [gatewayStack; backendStack; frontendStack] ∧
    destroy_order t [frontendStack; backendStack; gatewayStack] ∧
    ¬ deploy_order t [backendStack; gatewayStack; frontendStack].
Proof.
  split; [reflexivity|].
  destruct (@provisioning_order_is_linear example_cloud alice_udr eq_refl)
    as (t & Hrun & _ & _ & Horder).
  exists t. split_and!; [exact Hrun | | |].
  - by apply (Horder [gatewayStack; backendStack; frontendStack]).
  - by apply (Horder [frontendStack; backendStack; gatewayStack]).
  - intros Hd.
    apply (Horder [backendStack; gatewayStack; frontendStack]) in Hd.
    discriminate Hd.
Defined.

Example backend_before_gateway_is_no_deploy_order :
  ¬ deploy_order (graph_of (@App.synth example_cloud alice_udr))
      [backendStack; gatewayStack; frontendStack].
Proof. intros [_ Hd]. discriminate Hd. Qed.

(** * Further properties of the stacks *)

(** ** The repository of the connected path *)

Lemma split_separator sep s :
  JS.split sep (String sep s) = EmptyString :: JS.split sep s.
Proof. cbn [JS.split]. by rewrite Ascii.eqb_refl. Qed.

Lemma occurs_false c s :
  occurs c s = false → ∀ d, d ∈ String.list_ascii_of_string s → d ≠ c.
Proof.
  induction s as [|a s IH]; cbn [occurs String.list_ascii_of_string];
    intros Ho d Hd; [by apply elem_of_nil in Hd|].
  apply orb_false_iff in Ho as [Ha Ho].
  apply elem_of_cons in Hd as [-> | Hd]; [|by apply IH].
  by apply Ascii.eqb_neq.
Qed.

(** The pieces of [a + c + b], when [c] does not occur in [a]. *)
Lemma split_app sep a b :
  occurs sep a = false →
  JS.split sep (a +:+ String sep b) = a :: JS.split sep b.
Proof.
  induction a as [|c a IH]; intros Ho.
  - apply split_separator.
  - cbn [occurs] in Ho. apply orb_false_iff in Ho as [Hc Ho].
    change (String c a +:+ String sep b) with (String c (a +:+ String sep b)).
    cbn [JS.split]. rewrite Hc, IH; done.
Qed.

(** On the connected path the provider is read off the repository with
    [split('/')], and the credential is passed by the name of its secret. *)
Lemma frontend_connected_provider `{Cloud} props repo token :
  JS.narrow (UDRFrontendStack.githubRepo props) = Some repo →
  JS.narrow (UDRFrontendStack.githubToken props) = Some token →
  ∃ s t,
    provision_frontend props = inr (s, t) ∧
    AmplifyApp.sourceCodeProvider <$> amplifyApp t (UDRFrontendStack.amplifyApp s)
      = Some (Some {| AmplifyApp.owner := JS.split "/" repo !! 0%nat;
                      AmplifyApp.repository := JS.split "/" repo !! 1%nat;
                      AmplifyApp.oauthToken := AmplifyApp.secretsManager token |}).
Proof.
  intros Hr Hk. frontend_cases props; lazy in Hr, Hk;
    try discriminate Hr; try discriminate Hk.
  injection Hr as <-. injection Hk as <-. provisioned. reflexivity.
Qed.

(** X1: a repository written [owner/name], neither part holding a slash,
    with a credential, is bound as owner [owner] and repository [name]. *)
Theorem repository_owner_and_name `{Cloud} props owner name token :
  UDRFrontendStack.githubRepo props = Some (owner +:+ "/" +:+ name) →
  occurs "/" owner = false →
  occurs "/" name = false →
  JS.narrow (UDRFrontendStack.githubToken props) = Some token →
  ∃ s t,
    provision_frontend props = inr (s, t) ∧
    AmplifyApp.sourceCodeProvider <$> amplifyApp t (UDRFrontendStack.amplifyApp s)
      = Some (Some {| AmplifyApp.owner := Some owner;
                      AmplifyApp.repository := Some name;
                      AmplifyApp.oauthToken := AmplifyApp.secretsManager token |}).
Proof.
  intros Hrepo Ho Hn Hk.
  assert (Hr : JS.narrow (UDRFrontendStack.githubRepo props)
               = Some (owner +:+ "/" +:+ name)).
  { rewrite Hrepo. by destruct owner. }
  destruct (frontend_connected_provider props _ _ Hr Hk)
    as (s & t & Hrun & Hprovider).
  exists s, t. split; [done|]. rewrite Hprovider.
  change (owner +:+ "/" +:+ name) with (owner +:+ String "/" name).
  rewrite (split_app _ _ _ Ho).
  by rewrite (split_no_separator "/" name (occurs_false _ _ Hn)).
Qed.

Lemma repository_owner_and_name_witness :
  ∃ s t,
    @provision_frontend example_cloud alice_connected = inr (s, t) ∧
    AmplifyApp.sourceCodeProvider <$> amplifyApp t (UDRFrontendStack.amplifyApp s)
      = Some (Some {| AmplifyApp.owner := Some "alice";
                      AmplifyApp.repository := Some "udr";
                      AmplifyApp.oauthToken :=
                        AmplifyApp.secretsManager "github-token" |}).
Proof.
  exact (@repository_owner_and_name example_cloud alice_connected
           "alice" "udr" "github-token" eq_refl eq_refl eq_refl eq_refl).
Defined.

(** X2: a repository without a slash, with a credential, is not refused:
    the application is bound with the whole identifier as owner and no
    repository name. *)
Theorem repository_without_slash `{Cloud} props repo token :
  JS.narrow (UDRFrontendStack.githubRepo props) = Some repo →
  occurs "/" repo = false →
  JS.narrow (UDRFrontendStack.githubToken props) = Some token →
  ∃ s t,
    provision_frontend props = inr (s, t) ∧
    AmplifyApp.sourceCodeProvider <$> amplifyApp t (UDRFrontendStack.amplifyApp s)
      = Some (Some {| AmplifyApp.owner := Some repo;
                      AmplifyApp.repository := None;
                      AmplifyApp.oauthToken := AmplifyApp.secretsManager token |}).
Proof.
  intros Hr Ho Hk.
  destruct (frontend_connected_provider props _ _ Hr Hk)
    as (s & t & Hrun & Hprovider).
  exists s, t. split; [done|]. rewrite Hprovider.
  by rewrite (split_no_separator "/" repo (occurs_false _ _ Ho)).
Qed.

Lemma repository_without_slash_witness :
  ∃ s t,
    @provision_frontend example_cloud no_slash = inr (s, t) ∧
    AmplifyApp.sourceCodeProvider <$> amplifyApp t (UDRFrontendStack.amplifyApp s)
      = Some (Some {| AmplifyApp.owner := Some "udr";
                      AmplifyApp.repository := None;
                      AmplifyApp.oauthToken :=
                        AmplifyApp.secretsManager "github-token" |}).
Proof.
  exact (@repository_without_slash example_cloud no_slash
           "udr" "github-token" eq_refl eq_refl eq_refl).
Defined.

Example repository_with_two_slashes :
  JS.split "/" "alice/udr/extra" !! 1%nat = Some "udr".
Proof. reflexivity. Qed.

(** ** The webhook of the frontend *)

(** X3: the branch [webhook] and the output [WebhookURL] are there exactly
    when no repository is supplied, whatever the credential is. *)
Theorem webhook_iff_no_repository `{Cloud} props :
  ∃ s t,
    provision_frontend props = inr (s, t) ∧
    (is_Some (output t (UDRFrontendStack.this s) "WebhookURL")
       ↔ supplied (UDRFrontendStack.githubRepo props) = false) ∧
    (is_Some (branch t (UDRFrontendStack.amplifyApp s ++ ["WebhookBranch"])%list)
       ↔ supplied (UDRFrontendStack.githubRepo props) = false).
Proof.
  frontend_cases props; provisioned;
    (split; (split;
      [ intros Hs; first [ reflexivity | lazy in Hs; by destruct Hs as [? [=]] ]
      | intros Hn; first [ discriminate Hn | by eexists ] ])).
Qed.

Example token_only_has_webhook :
  is_Some (output (tree_of (@provision_frontend example_cloud token_only))
             ["UDRFrontendStack"] "WebhookURL") ∧
  disconnected (tree_of (@provision_frontend example_cloud token_only))
    ["UDRFrontendStack"; "UDRAmplifyApp"].
Proof. split; [by eexists | reflexivity]. Qed.

(** ** The environment and the outputs of the frontend *)

(** X4: on either path the build specification, the application and the
    branch [main] carry one and the same map of six variables, and the
    branch [main] builds automatically. *)
Theorem frontend_environment_is_shared `{Cloud} props :
  ∃ s t,
    provision_frontend props = inr (s, t) ∧
    build_environments t (UDRFrontendStack.amplifyApp s)
                         (UDRFrontendStack.mainBranch s)
      = replicate 3 (Some (UDRFrontendStack.environmentVariables props)) ∧
    dom (UDRFrontendStack.environmentVariables props)
      = list_to_set [ "NEXT_PUBLIC_BACKEND_BASE_URL"; "NEXT_PUBLIC_BACKEND_PORT";
                      "NEXT_PUBLIC_API_VERSION"; "NEXT_PUBLIC_ENABLE_V2_API";
                      "NEXT_PUBLIC_DRY_RUN"; "_LIVE_UPDATES" ] ∧
    Branch.autoBuild <$> branch t (UDRFrontendStack.mainBranch s) = Some true.
Proof.
  frontend_cases props; provisioned;
    (split_and!; [reflexivity | | reflexivity]);
    unfold UDRFrontendStack.environmentVariables;
    rewrite dom_list_to_map_L; reflexivity.
Qed.

(** X5: the frontend stack reports the hosted URL it computed, exported as
    [UDRFrontendURL], and the identifier and the name of its one
    application shell. *)
Theorem frontend_outputs `{Cloud} props :
  ∃ s t,
    provision_frontend props = inr (s, t) ∧
    app_shells t = [UDRFrontendStack.amplifyApp s] ∧
    output t (UDRFrontendStack.this s) "FrontendURL"
      = Some (UDRFrontendStack.frontendUrl s) ∧
    output t (UDRFrontendStack.this s) "AmplifyAppId"
      = Some (appId (UDRFrontendStack.amplifyApp s)) ∧
    output t (UDRFrontendStack.this s) "AmplifyAppName"
      = Some (appName (UDRFrontendStack.amplifyApp s)) ∧
    exports t = ["UDRFrontendURL"].
Proof. frontend_cases props; provisioned; split_and!; reflexivity. Qed.

(** ** The lookup of the backend *)

(** X14: the backend stack looks its network up, and a lookup is by
    account and region: when the environment of the stack leaves one of the
    two undefined the constructor throws, and nothing of the backend is
    created. *)
Theorem backend_lookup_throws `{Cloud} props :
  UDRBackendStack.env props ≫= Environment.account = None ∨
  UDRBackendStack.env props ≫= Environment.region = None →
  provision_backend props
    = inl (StackAccountRegionNotSpecified ["UDRBackendStack"]).
Proof.
  destruct props as [[[[account|] [region'|]]|] d g]; cbn;
    intros [He | He]; first [discriminate He | reflexivity].
Qed.

Lemma backend_lookup_throws_witness :
  UDRBackendStack.env backend_without_environment = None ∧
  @provision_backend example_cloud backend_without_environment
    = inl (StackAccountRegionNotSpecified ["UDRBackendStack"]).
Proof.
  split; [reflexivity|].
  exact (@backend_lookup_throws example_cloud backend_without_environment
           (or_introl eq_refl)).
Defined.

(** ** The secrets and the ports of the backend *)

(** X6: in an environment that names an account and a region, the two API
    keys reach the backend container as secrets, not as environment
    variables: [NVIDIA_API_KEY] is the field [nvidia_api_key] and
    [TAVILY_API_KEY] the field [tavily_api_key] of the secret
    [UDRBackendSecrets], whose generated key is [nvidia_api_key]; the role
    that runs and executes the task may read this secret, and no other. *)
Theorem backend_secrets_are_readable `{Cloud} props :
  environment_is_given (UDRBackendStack.env props) = true →
  ∃ s t,
    provision_backend props = inr (s, t) ∧
    let this := UDRBackendStack.this s in
    let backendContainer := (this ++ ["BackendTaskDef"; "BackendContainer"])%list in
    let backendTask := (this ++ ["BackendTaskDef"])%list in
    let taskRole := (this ++ ["BackendTaskRole"])%list in
    let apiSecrets := (this ++ ["UDRBackendSecrets"])%list in
    ContainerDefinition.secrets <$> container t backendContainer
      = Some (list_to_map [
          ("NVIDIA_API_KEY",
             ContainerDefinition.fromSecretsManager apiSecrets "nvidia_api_key");
          ("TAVILY_API_KEY",
             ContainerDefinition.fromSecretsManager apiSecrets "tavily_api_key") ]) ∧
    Secret.generateSecretString <$> secret t apiSecrets
      = Some {| Secret.secretStringTemplate := UDRBackendStack.secretStringTemplate;
                Secret.generateStringKey := "nvidia_api_key";
                Secret.excludeCharacters := JS.dquote +:+ "@/\" |} ∧
    FargateTaskDefinition.taskRole <$> taskDefinition t backendTask
      = Some taskRole ∧
    taskDefinition t backendTask ≫= FargateTaskDefinition.executionRole
      = Some taskRole ∧
    grantedRead t taskRole = Some [apiSecrets] ∧
    ContainerDefinition.environment <$> container t backendContainer
      = Some (UDRBackendStack.environment props) ∧
    UDRBackendStack.environment props !! "NVIDIA_API_KEY" = None ∧
    UDRBackendStack.environment props !! "TAVILY_API_KEY" = None.
Proof.
  intros Henv. backend_cases props Henv. provisioned.
  split_and!; reflexivity.
Qed.

Lemma backend_secrets_are_readable_witness :
  environment_is_given (UDRBackendStack.env backend_in_account) = true ∧
  ∃ s t,
    @provision_backend example_cloud backend_in_account = inr (s, t) ∧
    grantedRead t (UDRBackendStack.this s ++ ["BackendTaskRole"])%list
      = Some [(UDRBackendStack.this s ++ ["UDRBackendSecrets"])%list].
Proof.
  split; [reflexivity|].
  destruct (@backend_secrets_are_readable example_cloud backend_in_account
              eq_refl)
    as (s & t & Hrun & _ & _ & _ & _ & Hgranted & _).
  exists s, t. split; [exact Hrun | exact Hgranted].
Defined.

(** X7: in an environment that names an account and a region, the backend
    is reached on one port throughout: the port the container is told to
    listen on ([PORT]) is the port it maps, the port of every rule of its
    security group (one rule of the source, for any address, and the rule
    the library adds for the load balancer when the service is put behind
    the listener), the port of the target group and of its target; the
    load balancer listens on port 80. *)
Theorem backend_port_is_consistent `{Cloud} props :
  environment_is_given (UDRBackendStack.env props) = true →
  ∃ s t admitted,
    provision_backend props = inr (s, t) ∧
    let this := UDRBackendStack.this s in
    let backendContainer := (this ++ ["BackendTaskDef"; "BackendContainer"])%list in
    let port : Z := 8000 in
    (ContainerDefinition.environment <$> container t backendContainer)
      ≫= (.!! "PORT") = Some (pretty port) ∧
    portMappings t backendContainer
      = Some [ {| ContainerDefinition.containerPort := port;
                  ContainerDefinition.protocol := ContainerDefinition.TCP |} ] ∧
    ingress t (this ++ ["BackendSecurityGroup"])%list = Some admitted ∧
    SecurityGroup.peer <$> admitted
      = [ SecurityGroup.anyIpv4;
          SecurityGroup.securityGroupsOf (this ++ ["BackendALB"])%list ] ∧
    Forall (λ rule, SecurityGroup.connection rule = SecurityGroup.tcp port)
      admitted ∧
    targets t
      = [ (port,
           {| FargateService.service := (this ++ ["BackendService"])%list;
              FargateService.options :=
                {| FargateService.containerName := "BackendContainer";
                   FargateService.containerPort := port |} |}) ] ∧
    Forall (λ target, target_resolves t target.2 = true) (targets t) ∧
    (ApplicationListener.port
       <$> listener t (this ++ ["BackendALB"; "BackendListener"])%list)
      = Some 80.
Proof.
  intros Henv. backend_cases props Henv.
  match goal with
  | |- ∃ s t admitted, ?run = inr (s, t) ∧ _ =>
      exists (object_of run), (tree_of run),
        [ {| SecurityGroup.peer := SecurityGroup.anyIpv4;
             SecurityGroup.connection := SecurityGroup.tcp 8000;
             SecurityGroup.ruleDescription := "Allow HTTP traffic to backend" |};
          {| SecurityGroup.peer :=
               SecurityGroup.securityGroupsOf ["UDRBackendStack"; "BackendALB"];
             SecurityGroup.connection := SecurityGroup.tcp 8000;
             SecurityGroup.ruleDescription := "Load balancer to target" |} ];
      split; [apply succeeds_inr; reflexivity | ]
  end.
  split_and!; try reflexivity; repeat constructor.
Qed.

Lemma backend_port_is_consistent_witness :
  environment_is_given (UDRBackendStack.env backend_in_account) = true ∧
  ∃ s t admitted,
    @provision_backend example_cloud backend_in_account = inr (s, t) ∧
    ingress t (UDRBackendStack.this s ++ ["BackendSecurityGroup"])%list
      = Some admitted ∧
    Forall (λ rule, SecurityGroup.connection rule = SecurityGroup.tcp 8000)
      admitted.
Proof.
  split; [reflexivity|].
  destruct (@backend_port_is_consistent example_cloud backend_in_account
              eq_refl)
    as (s & t & admitted & Hrun & _ & _ & Hingress & _ & Hports & _).
  exists s, t, admitted. split_and!; [exact Hrun | exact Hingress | exact Hports].
Defined.

(** X8: in an environment that names an account and a region, the health
    check of the load balancer agrees with the health check of the
    container: the same interval and timeout, as many failures before the
    backend counts as unhealthy, and the path the container check fetches
    from the container port. *)
Theorem backend_health_checks_agree `{Cloud} props :
  environment_is_given (UDRBackendStack.env props) = true →
  ∃ s t ofContainer ofTargets,
    provision_backend props = inr (s, t) ∧
    container t (UDRBackendStack.this s ++ ["BackendTaskDef"; "BackendContainer"])%list
      ≫= ContainerDefinition.healthCheck = Some ofContainer ∧
    targetGroup t (UDRBackendStack.this s ++ ["BackendTargets"])%list
      ≫= ApplicationTargetGroup.healthCheck = Some ofTargets ∧
    HealthCheck.interval ofContainer = ApplicationTargetGroup.interval ofTargets ∧
    HealthCheck.timeout ofContainer = ApplicationTargetGroup.timeout ofTargets ∧
    HealthCheck.retries ofContainer
      = ApplicationTargetGroup.unhealthyThresholdCount ofTargets ∧
    HealthCheck.command ofContainer
      = [ "CMD-SHELL";
          "curl -f http://localhost:" +:+ pretty 8000
            +:+ ApplicationTargetGroup.path ofTargets +:+ " || exit 1" ].
Proof.
  intros Henv.
  exists (object_of (provision_backend props)),
         (tree_of (provision_backend props)),
         UDRBackendStack.healthCheck,
         {| ApplicationTargetGroup.path := "/";
            ApplicationTargetGroup.healthyHttpCodes := "200";
            ApplicationTargetGroup.interval := Duration.seconds 30;
            ApplicationTargetGroup.timeout := Duration.seconds 5;
            ApplicationTargetGroup.healthyThresholdCount := 2;
            ApplicationTargetGroup.unhealthyThresholdCount := 3 |}.
  split; [by apply succeeds_inr, backend_provisioned|].
  backend_cases props Henv. split_and!; reflexivity.
Qed.

Lemma backend_health_checks_agree_witness :
  environment_is_given (UDRBackendStack.env backend_in_account) = true ∧
  ∃ s t ofContainer ofTargets,
    @provision_backend example_cloud backend_in_account = inr (s, t) ∧
    container t (UDRBackendStack.this s ++ ["BackendTaskDef"; "BackendContainer"])%list
      ≫= ContainerDefinition.healthCheck = Some ofContainer ∧
    targetGroup t (UDRBackendStack.this s ++ ["BackendTargets"])%list
      ≫= ApplicationTargetGroup.healthCheck = Some ofTargets ∧
    HealthCheck.interval ofContainer = ApplicationTargetGroup.interval ofTargets.
Proof.
  split; [reflexivity|].
  destruct (@backend_health_checks_agree example_cloud backend_in_account
              eq_refl)
    as (s & t & c & g & Hrun & Hc & Hg & Hi & _).
  exists s, t, c, g. split_and!; [exact Hrun | exact Hc | exact Hg | exact Hi].
Defined.

(** ** The gateway stack *)

(** X9: the gateway stack is provisioned with or without properties.  Its
    URL is [http://] followed by the host of its load balancer, and both of
    its outputs give this URL, one of them exported as [BedrockGatewayURL].
    The container is told the region of the stack, listens on port 8080,
    which is the port it maps and the port of the target group and its
    target; the load balancer listens on port 80. *)
Theorem gateway_url_and_port `{Cloud} props :
  ∃ s t,
    provision_gateway props = inr (s, t) ∧
    let this := BedrockGatewayStack.this s in
    let gatewayContainer := (this ++ ["GatewayTaskDef"; "GatewayContainer"])%list in
    let port : Z := 8080 in
    BedrockGatewayStack.gatewayUrl s
      = "http://" +:+ loadBalancerDnsName (this ++ ["GatewayALB"])%list ∧
    output t this "GatewayURL" = Some (BedrockGatewayStack.gatewayUrl s) ∧
    output t this "GatewayURLExport" = Some (BedrockGatewayStack.gatewayUrl s) ∧
    exports t = ["BedrockGatewayURL"] ∧
    (ContainerDefinition.environment <$> container t gatewayContainer)
      = Some (list_to_map [("PORT", pretty port);
                           ("AWS_REGION", region this props)]) ∧
    portMappings t gatewayContainer
      = Some [ {| ContainerDefinition.containerPort := port;
                  ContainerDefinition.protocol := ContainerDefinition.TCP |} ] ∧
    targets t
      = [ (port,
           {| FargateService.service := (this ++ ["GatewayService"])%list;
              FargateService.options :=
                {| FargateService.containerName := "GatewayContainer";
                   FargateService.containerPort := port |} |}) ] ∧
    Forall (λ target, target_resolves t target.2 = true) (targets t) ∧
    (ApplicationListener.port
       <$> listener t (this ++ ["GatewayALB"; "GatewayListener"])%list)
      = Some 80.
Proof. provisioned. split_and!; try reflexivity. repeat constructor. Qed.

(** Without properties the region is the one the cloud deploys to. *)
Example gateway_region_without_props `{Cloud} :
  (ContainerDefinition.environment
     <$> container (tree_of (provision_gateway None))
           ["BedrockGatewayStack"; "GatewayTaskDef"; "GatewayContainer"])
    ≫= (.!! "AWS_REGION")
  = Some (attr ["BedrockGatewayStack"] "AWS::Region").
Proof. reflexivity. Qed.

(** ** Where the backend listener sends a request *)

(** X10: the rule of the backend listener restricts nothing: in an
    environment that names an account and a region, whatever the headers of
    a request are, and however the cloud matches patterns, the request is
    forwarded to the backend target group. *)
Theorem backend_listener_forwards_every_request `{Cloud} props (r : Request) :
  environment_is_given (UDRBackendStack.env props) = true →
  ∃ s t,
    provision_backend props = inr (s, t) ∧
    snd <$> route t (UDRBackendStack.this s ++ ["BackendALB"; "BackendListener"])%list r
      = Some (ApplicationListener.forward
                [(UDRBackendStack.this s ++ ["BackendTargets"])%list]).
Proof.
  intros Henv.
  exists (object_of (provision_backend props)),
         (tree_of (provision_backend props)).
  split; [by apply succeeds_inr, backend_provisioned|].
  replace (UDRBackendStack.this (object_of (provision_backend props)))
    with ["UDRBackendStack"]
    by (backend_cases props Henv; reflexivity).
  cbn [app]. by rewrite backend_route.
Qed.

Lemma backend_listener_forwards_every_request_witness :
  environment_is_given (UDRBackendStack.env backend_in_account) = true ∧
  ∃ s t,
    @provision_backend example_cloud backend_in_account = inr (s, t) ∧
    snd <$> @route example_cloud t
              (UDRBackendStack.this s ++ ["BackendALB"; "BackendListener"])%list
              [("Origin", "https://other.example")]
      = Some (ApplicationListener.forward
                [(UDRBackendStack.this s ++ ["BackendTargets"])%list]).
Proof.
  split; [reflexivity|].
  exact (@backend_listener_forwards_every_request example_cloud
           backend_in_account [("Origin", "https://other.example")] eq_refl).
Defined.

(** ** The environment of the application *)

(** X11: the region of a deployment is never missing: it is the region of
    the context, else [CDK_DEFAULT_REGION], else [us-east-1], where an
    empty value counts as absent.  The account has no such default.  When
    the run knows its account, all three stacks are created in this
    environment, and the gateway container is told this region. *)
Theorem region_is_never_missing `{Cloud} i :
  ∃ region,
    Environment.region (App.env i) = Some region ∧
    region ≠ EmptyString ∧
    (∀ r, JS.narrow (App.context i !! "region") = Some r → region = r) ∧
    (JS.narrow (App.context i !! "region") = None →
       ∀ r, JS.narrow (App.process_env i !! "CDK_DEFAULT_REGION") = Some r →
            region = r) ∧
    (JS.narrow (App.context i !! "region") = None →
       JS.narrow (App.process_env i !! "CDK_DEFAULT_REGION") = None →
       region = "us-east-1") ∧
    (JS.narrow (App.context i !! "account") = None →
       Environment.account (App.env i)
         = App.process_env i !! "CDK_DEFAULT_ACCOUNT") ∧
    (account_is_given i = true →
     ∃ app t,
       App.main i [] = inr (app, t) ∧
       Forall (λ stack, environment_of t stack = Some (App.env i)) (stacks t) ∧
       (ContainerDefinition.environment
          <$> container t (BedrockGatewayStack.this (App.gatewayStack app)
                             ++ ["GatewayTaskDef"; "GatewayContainer"])%list)
         ≫= (.!! "AWS_REGION") = Some region).
Proof.
  exists (JS.or_else (JS.or (App.tryGetContext i "region")
                            (App.process_env i !! "CDK_DEFAULT_REGION"))
                     "us-east-1").
  split; [reflexivity|].
  assert (Hregion : ∀ a b : option string,
            let region := JS.or_else (JS.or a b) "us-east-1" in
            region ≠ EmptyString ∧
            (∀ r, JS.narrow a = Some r → region = r) ∧
            (JS.narrow a = None → ∀ r, JS.narrow b = Some r → region = r) ∧
            (JS.narrow a = None → JS.narrow b = None → region = "us-east-1")).
  { intros [[|c a]|] [[|d b]|]; cbn; split_and!; try done; intros; congruence. }
  destruct (Hregion (App.context i !! "region")
                    (App.process_env i !! "CDK_DEFAULT_REGION"))
    as (Hne & Hctx & Henv & Hdefault).
  split_and!; [exact Hne | exact Hctx | exact Henv | exact Hdefault | |].
  - unfold App.env, App.tryGetContext, JS.or, JS.truthy. cbn.
    by intros ->.
  - intros Hacc.
    exists (object_of (App.main i [])), (tree_of (App.main i [])).
    split; [by apply succeeds_inr, main_succeeds|]. split.
    + replace (stacks (tree_of (App.main i [])))
        with [gatewayStack; backendStack; frontendStack]
        by (app_cases i Hacc; reflexivity).
      repeat apply Forall_cons_2; [ .. | apply Forall_nil_2 ];
        app_cases i Hacc; reflexivity.
    + app_cases i Hacc; reflexivity.
Qed.

Lemma region_is_never_missing_witness :
  account_is_given alice_udr = true ∧
  Environment.region (App.env alice_udr) = Some "us-east-1" ∧
  ∃ app t,
    @App.main example_cloud alice_udr [] = inr (app, t) ∧
    (ContainerDefinition.environment
       <$> container t (BedrockGatewayStack.this (App.gatewayStack app)
                          ++ ["GatewayTaskDef"; "GatewayContainer"])%list)
      ≫= (.!! "AWS_REGION") = Some "us-east-1".
Proof.
  split; [reflexivity|]. split; [reflexivity|].
  destruct (@region_is_never_missing example_cloud alice_udr)
    as (region & Hregion & _ & _ & _ & _ & _ & Hrun).
  destruct (Hrun eq_refl) as (app & t & Hmain & _ & Hgateway).
  exists app, t. split; [exact Hmain|].
  rewrite Hgateway. rewrite <- Hregion. reflexivity.
Defined.



Example region_of_context_wins :
  Environment.region (App.env region_from_context) = Some "eu-west-1".
Proof. reflexivity. Qed.

(** ** The references of the application *)

(** X12: in the tree of every deployment of a run that knows its account
    the paths are pairwise distinct, every construct lies in a scope of the
    tree, every object a construct holds is a construct of the tree of the
    right kind and of the same stack, and every target of a load balancer
    names a container of the task of its service that maps the port of the
    target, which is the port of the target group.  The stacks are tied to
    each other only by the URLs they pass on and the dependencies they
    declare. *)
Theorem application_is_well_referenced `{Cloud} i :
  account_is_given i = true →
  ∃ t,
    App.synth i = inr t ∧
    distinct_paths (t.*1) = true ∧
    scopes_exist t = true ∧
    references_resolve t = true ∧
    references_are_local t = true ∧
    Forall (λ target,
        target_resolves t target.2 = true ∧
        FargateService.containerPort (FargateService.options target.2) = target.1)
      (targets t) ∧
    length (targets t) = 2%nat.
Proof.
  intros Hacc.
  exists (graph_of (App.synth i)).
  split; [by apply succeeds_graph, synth_succeeds|].
  assert (Htargets : targets (graph_of (App.synth i))
            = [ (8080,
                 {| FargateService.service := ["BedrockGatewayStack"; "GatewayService"];
                    FargateService.options :=
                      {| FargateService.containerName := "GatewayContainer";
                         FargateService.containerPort := 8080 |} |});
                (8000,
                 {| FargateService.service := ["UDRBackendStack"; "BackendService"];
                    FargateService.options :=
                      {| FargateService.containerName := "BackendContainer";
                         FargateService.containerPort := 8000 |} |}) ])
    by (app_cases i Hacc; reflexivity).
  rewrite Htargets.
  split_and!; try (app_cases i Hacc; reflexivity).
  repeat apply Forall_cons_2; [ .. | apply Forall_nil_2 ];
    (split; [app_cases i Hacc; reflexivity | reflexivity]).
Qed.

Lemma application_is_well_referenced_witness :
  account_is_given alice_udr = true ∧
  ∃ t,
    @App.synth example_cloud alice_udr = inr t ∧
    references_resolve t = true ∧
    references_are_local t = true.
Proof.
  split; [reflexivity|].
  destruct (@application_is_well_referenced example_cloud alice_udr eq_refl)
    as (t & Hrun & _ & _ & Hresolve & Hlocal & _).
  exists t. split_and!; [exact Hrun | exact Hresolve | exact Hlocal].
Defined.

(** X13: in every deployment of a run that knows its account the frontend
    is told the port on which the load balancer of the backend listens. *)
Theorem frontend_knows_backend_port `{Cloud} i :
  account_is_given i = true →
  ∃ app t port,
    App.main i [] = inr (app, t) ∧
    (ApplicationListener.port
       <$> listener t (UDRBackendStack.this (App.backendStack app)
                         ++ ["BackendALB"; "BackendListener"])%list)
      = Some port ∧
    Forall (λ env, env ≫= (.!! "NEXT_PUBLIC_BACKEND_PORT") = Some (pretty port))
      (build_environments t
         (UDRFrontendStack.amplifyApp (App.frontendStack app))
         (UDRFrontendStack.mainBranch (App.frontendStack app))).
Proof.
  intros Hacc.
  exists (object_of (App.main i [])), (tree_of (App.main i [])), 80.
  split; [by apply succeeds_inr, main_succeeds|].
  app_cases i Hacc; split; first [reflexivity | repeat constructor].
Qed.

Lemma frontend_knows_backend_port_witness :
  account_is_given alice_udr = true ∧
  ∃ app t port,
    @App.main example_cloud alice_udr [] = inr (app, t) ∧
    (ApplicationListener.port
       <$> listener t (UDRBackendStack.this (App.backendStack app)
                         ++ ["BackendALB"; "BackendListener"])%list)
      = Some port ∧
    Forall (λ env, env ≫= (.!! "NEXT_PUBLIC_BACKEND_PORT") = Some (pretty port))
      (build_environments t
         (UDRFrontendStack.amplifyApp (App.frontendStack app))
         (UDRFrontendStack.mainBranch (App.frontendStack app))).
Proof.
  split; [reflexivity|].
  exact (@frontend_knows_backend_port example_cloud alice_udr eq_refl).
Defined.

(** ** The frontend-only application *)

(** The frontend-only application creates no stack. *)
Example frontend_only_app_is_empty `{Cloud} i : FrontendOnlyApp.synth i = inr [].
Proof. reflexivity. Qed.

(** ** The checks refuse what they should *)

Example dangling_reference_is_found :
  references_resolve
    [ (["S"; "Cluster"],
       Cluster {| Cluster.vpc := ["S"; "Vpc"];
                  Cluster.containerInsights := true;
                  Cluster.clusterName := None |}) ] = false.
Proof. reflexivity. Qed.

Example foreign_reference_is_found :
  let t := [ (["T"; "Vpc"], Vpc {| Vpc.maxAzs := 2; Vpc.natGateways := 1 |});
             (["S"; "Cluster"],
              Cluster {| Cluster.vpc := ["T"; "Vpc"];
                         Cluster.containerInsights := true;
                         Cluster.clusterName := None |}) ] in
  references_resolve t = true ∧ references_are_local t = false.
Proof. split; reflexivity. Qed.

Example repeated_path_is_found : distinct_paths [["S"]; ["T"]; ["S"]] = false.
Proof. reflexivity. Qed.

Example unmapped_port_does_not_resolve :
  target_resolves (tree_of (@provision_backend example_cloud backend_in_account))
    {| FargateService.service := ["UDRBackendStack"; "BackendService"];
       FargateService.options :=
         {| FargateService.containerName := "BackendContainer";
            FargateService.containerPort := 8080 |} |} = false.
Proof. reflexivity. Qed.
